(** * PubMed export pipeline: a shallow embedding of [src/my_package/pubmed.py]

    The module searches PubMed, fetches the matching citations, flattens
    every citation into one row of a pandas data frame, writes the frame as
    a CSV file and renders one Markdown document per row.

    Conventions of the embedding.
    - A Python [str] is a [string]; every character is read as the code
      point with the same number (0..255).
    - A Python dictionary read with fixed keys is a record whose fields are
      [option]s: [None] is an absent key, and subscripting it raises
      [KeyError].  A dictionary used as a map ([pubdate]) is a [gmap].
    - Exceptions are values of [exn]; pure code that may raise returns a
      [result], code that touches the file system runs in the monad [io].
    - The diagnostic [print]s are outside the embedding; the server behind
      [Entrez.esearch] and [Entrez.efetch] is a parameter of the client. *)

From Stdlib Require Import Ascii String.
From stdpp Require Import base option list strings gmap.

Local Open Scope string_scope.
Local Open Scope list_scope.

(** ** Exceptions and the two monads *)

Inductive exn : Type :=
  | KeyError (key : string)
  | TypeError
  | AttributeError
  | FileNotFoundError (path : string)
  | FileExistsError (path : string)
  | IsADirectoryError (path : string)
  | PermissionError (path : string).

Inductive result (A : Type) : Type :=
  | Ok (a : A)
  | Err (e : exn).
Arguments Ok {A} a.
Arguments Err {A} e.

#[global] Instance result_ret : MRet result := fun A a => Ok a.
#[global] Instance result_bind : MBind result := fun A B f m =>
  match m with
  | Ok a => f a
  | Err e => Err e
  end.

(** [d[k]] on a dictionary field: the value, or [KeyError k]. *)
Definition item {A : Type} (k : string) (field : option A) : result A :=
  match field with
  | Some v => Ok v
  | None => Err (KeyError k)
  end.

(** Run a raising function over a list, left to right, stopping at the
    first exception (a generator expression consumed by [join]). *)
Fixpoint for_each {A B : Type} (f : A -> result B) (l : list A) : result (list B) :=
  match l with
  | [] => Ok []
  | x :: l' => y ← f x; ys ← for_each f l'; Ok (y :: ys)
  end.

(** ** Strings *)

(** [sep.join(parts)] *)
Definition join (sep : string) (parts : list string) : string :=
  String.concat sep parts.

Definition code (c : ascii) : nat := nat_of_ascii c.

Definition in_range (lo hi : nat) (c : ascii) : bool :=
  (lo <=? code c)%nat && (code c <=? hi)%nat.

(** The class [a-zA-Z0-9]. *)
Definition is_alnum (c : ascii) : bool :=
  in_range 97 122 c || in_range 65 90 c || in_range 48 57 c.

(** The class [\s] of a [str] pattern (Unicode white space), on the code
    points below 256: TAB..CR, FS..US, SPACE, NEL and NBSP. *)
Definition is_space (c : ascii) : bool :=
  in_range 9 13 c || in_range 28 31 c || (code c =? 32)%nat
  || (code c =? 133)%nat || (code c =? 160)%nat.

Fixpoint filter_string (keep : ascii -> bool) (s : string) : string :=
  match s with
  | "" => ""
  | String c s' =>
      if keep c then String c (filter_string keep s') else filter_string keep s'
  end.

(** [re.sub(r'[^a-zA-Z0-9\s]', '', s)] *)
Definition sanitize (s : string) : string :=
  filter_string (fun c => is_alnum c || is_space c) s.

(** ** The date extractor *)

Definition parse_date_from_pubdate (pubdate : gmap string string) : string :=
  match pubdate !! "Year" with
  | Some year =>
      let month := default "01" (pubdate !! "Month") in
      let day := default "01" (pubdate !! "Day") in
      year +:+ "-" +:+ month +:+ "-" +:+ day
  | None => "No date found"
  end.

(** ** The records returned by the details endpoint

    One field per key that the code reads; [None] is an absent key. *)

Record AffiliationInfoT := { Affiliation : option string }.

Record AuthorT := {
  LastName : option string;
  ForeName : option string;
  AffiliationInfo : option (list AffiliationInfoT) }.

Record MeshHeadingT := { DescriptorName : option string }.

Record AbstractT := { AbstractText : option (list string) }.

Record JournalT := { Title : option string }.

Record ArticleT := {
  ArticleTitle : option string;
  Abstract : option AbstractT;
  AuthorList : option (list AuthorT);
  Journal : option JournalT }.

Record MedlineCitationT := {
  PMID : option string;
  Article : option ArticleT;
  MeshHeadingList : option (list MeshHeadingT) }.

Record RawRecord := { MedlineCitation : option MedlineCitationT }.

Record Records := { PubmedArticle : option (list RawRecord) }.

(** The values bound by one pass of the loop of
    [create_publication_dataframe]; [row_X] is the cell of column [X]. *)
Record PublicationRow := {
  row_PMID : string;
  row_Title : string;
  row_Abstract : string;
  row_Authors : string;
  row_Journal : string;
  row_Keywords : string;
  row_URL : string;
  row_Affiliations : string }.

(** ** Data frames *)

(** A cell is a string or the missing value NaN. *)
Definition cell : Type := option string.

Record DataFrame := {
  columns : list string;
  rows : list (list cell) }.

(** [pd.DataFrame()] *)
Definition empty_frame : DataFrame := {| columns := []; rows := [] |}.

Definition publication_columns : list string :=
  ["PMID"; "Title"; "Abstract"; "Authors"; "Journal"; "Keywords"; "URL";
   "Affiliations"].

Definition cells_of (r : PublicationRow) : list cell :=
  [Some (row_PMID r); Some (row_Title r); Some (row_Abstract r);
   Some (row_Authors r); Some (row_Journal r); Some (row_Keywords r);
   Some (row_URL r); Some (row_Affiliations r)].

(** [pd.DataFrame({'PMID': [pmid], ..., 'Affiliations': [affiliations]})] *)
Definition new_row (r : PublicationRow) : DataFrame :=
  {| columns := publication_columns; rows := [cells_of r] |}.

Definition has_column (c : string) (cols : list string) : bool :=
  existsb (String.eqb c) cols.

(** The cell of column [c] in a row laid out along [cols]; NaN when the
    row has no such column. *)
Fixpoint cell_at (cols : list string) (cells : list cell) (c : string) : cell :=
  match cols, cells with
  | c' :: cols', x :: cells' =>
      if String.eqb c' c then x else cell_at cols' cells' c
  | _, _ => None
  end.

Definition reindex (from to : list string) (cells : list cell) : list cell :=
  map (cell_at from cells) to.

(** [pd.concat([df1, df2], ignore_index=True)]: the columns of [df1], then
    the columns only [df2] has; rows of [df1], then rows of [df2]; NaN
    where a row lacks a column. *)
Definition concat (df1 df2 : DataFrame) : DataFrame :=
  let cols :=
    columns df1
    ++ List.filter (fun c => negb (has_column c (columns df1))) (columns df2) in
  {| columns := cols;
     rows := map (reindex (columns df1) cols) (rows df1)
             ++ map (reindex (columns df2) cols) (rows df2) |}.

(** *** CSV text *)

Definition newline : string := String (ascii_of_nat 10) "".
Definition dquote : string := String (ascii_of_nat 34) "".

Definition needs_quote (c : ascii) : bool :=
  (code c =? 44)%nat || (code c =? 34)%nat || (code c =? 10)%nat
  || (code c =? 13)%nat.

Fixpoint double_quotes (s : string) : string :=
  match s with
  | "" => ""
  | String c s' =>
      if (code c =? 34)%nat then dquote +:+ dquote +:+ double_quotes s'
      else String c (double_quotes s')
  end.

Fixpoint any_char (p : ascii -> bool) (s : string) : bool :=
  match s with
  | "" => false
  | String c s' => p c || any_char p s'
  end.

(** One field under the default dialect (minimal quoting). *)
Definition csv_field (s : string) : string :=
  if any_char needs_quote s then dquote +:+ double_quotes s +:+ dquote else s.

(** One line: the fields separated by commas; a lone empty field is
    written quoted; an empty list of fields is an empty line. *)
Definition csv_line (fields : list string) : string :=
  match fields with
  | [""] => dquote +:+ dquote +:+ newline
  | _ => join "," (map csv_field fields) +:+ newline
  end.

(** NaN is written as the empty field. *)
Definition na_rep (c : cell) : string := default "" c.

(** The text [df.to_csv(path, index=False)] writes: the header line, then
    one line per row. *)
Definition to_csv (df : DataFrame) : string :=
  csv_line (columns df)
  +:+ join "" (map (fun r => csv_line (map na_rep r)) (rows df)).

(** ** The file system and the clock *)

Record World := {
  dirs : gset string;          (* existing directories, besides the current one *)
  files : gmap string string;  (* regular files and their text *)
  locked : gset string;        (* paths the process may not create or write *)
  clock : string }.            (* what [time.strftime('%Y%m%d%H%M')] returns *)

Inductive outcome (A : Type) : Type :=
  | Done (a : A) (w : World)
  | Raised (e : exn) (w : World).
Arguments Done {A} a w.
Arguments Raised {A} e w.

Definition io (A : Type) : Type := World -> outcome A.

#[global] Instance io_ret : MRet io := fun A a w => Done a w.
#[global] Instance io_bind : MBind io := fun A B f m w =>
  match m w with
  | Done a w' => f a w'
  | Raised e w' => Raised e w'
  end.

(** A pure computation inside [io]: its exception leaves the world as it is. *)
Definition lift {A : Type} (r : result A) : io A := fun w =>
  match r with
  | Ok a => Done a w
  | Err e => Raised e w
  end.

(** A path cut at its last slash: what precedes it and what follows it. *)
Fixpoint split_last_slash (p : string) : option (string * string) :=
  match p with
  | "" => None
  | String c p' =>
      match split_last_slash p' with
      | Some (d, b) => Some (String c d, b)
      | None => if (code c =? 47)%nat then Some ("", p') else None
      end
  end.

Definition dirname (p : string) : string :=
  match split_last_slash p with Some (d, _) => d | None => "" end.

Definition basename (p : string) : string :=
  match split_last_slash p with Some (_, b) => b | None => p end.

(** The current directory [""] always exists. *)
Definition dir_exists (w : World) (d : string) : bool :=
  String.eqb d "" || bool_decide (d ∈ dirs w).

Definition starts_with_slash (p : string) : bool :=
  match p with
  | String c _ => (code c =? 47)%nat
  | "" => false
  end.

Definition ends_with_slash (p : string) : bool :=
  negb (String.eqb p "") && String.eqb (basename p) "".

(** [os.path.join(a, b)] *)
Definition path_join (a b : string) : string :=
  if starts_with_slash b then b
  else if String.eqb a "" || ends_with_slash a then a +:+ b
  else a +:+ "/" +:+ b.

(** [os.makedirs(d, exist_ok=True)] for a directory of the current one. *)
Definition makedirs (d : string) : io unit := fun w =>
  if dir_exists w d then Done () w
  else if bool_decide (d ∈ dom (files w)) then Raised (FileExistsError d) w
  else if bool_decide (d ∈ locked w) then Raised (PermissionError d) w
  else Done () {| dirs := {[d]} ∪ dirs w; files := files w;
                  locked := locked w; clock := clock w |}.

(** [open(path, 'w')] followed by one [write] of [text]: the file is created
    or replaced. *)
Definition write_file (path text : string) : io unit := fun w =>
  if String.eqb (basename path) "" || bool_decide (path ∈ dirs w)
  then Raised (IsADirectoryError path) w
  else if negb (dir_exists w (dirname path))
  then Raised (FileNotFoundError path) w
  else if bool_decide (path ∈ locked w)
  then Raised (PermissionError path) w
  else Done () {| dirs := dirs w; files := <[path := text]> (files w);
                  locked := locked w; clock := clock w |}.

(** [time.strftime('%Y%m%d%H%M')] *)
Definition strftime : io string := fun w => Done (clock w) w.

(** ** The dataset builder *)

Section Builder.

(** The order in which Python iterates over [set(l)]: not specified, so a
    parameter of the development.  It lists every member of [l] once. *)
Variable set_iter : list string -> list string.

Definition medline (record : RawRecord) : result MedlineCitationT :=
  item "MedlineCitation" (MedlineCitation record).

Definition article (record : RawRecord) : result ArticleT :=
  mc ← medline record; item "Article" (Article mc).

(** [author.get('LastName', '') + ' ' + author.get('ForeName', '')] *)
Definition author_name (author : AuthorT) : string :=
  default "" (LastName author) +:+ " " +:+ default "" (ForeName author).

(** The loop of lines 59 to 61, appending to [affiliations]. *)
Fixpoint collect_affiliations (authors : list AuthorT)
    (affiliations : list string) : result (list string) :=
  match authors with
  | [] => Ok affiliations
  | author :: authors' =>
      match AffiliationInfo author with
      | Some (info :: _) =>
          aff ← item "Affiliation" (Affiliation info);
          collect_affiliations authors' (affiliations ++ [aff])
      | Some [] | None => collect_affiliations authors' affiliations
      end
  end.

(** The body of the loop, lines 53 to 66. *)
Definition publication_row (record : RawRecord) : result PublicationRow :=
  pmid ← (mc ← medline record; item "PMID" (PMID mc));
  title ← (art ← article record; item "ArticleTitle" (ArticleTitle art));
  abstract_text ← (art ← article record;
    match Abstract art with
    | Some abs =>
        match AbstractText abs with
        | Some text => Ok (join " " text)
        | None => Ok ""
        end
    | None => Ok ""
    end);
  authors ← (art ← article record;
    l ← item "AuthorList" (AuthorList art);
    Ok (join ", " (map author_name l)));
  affiliations ← (art ← article record;
    l ← item "AuthorList" (AuthorList art);
    collect_affiliations l []);
  let affiliations := join "; " (set_iter affiliations) in
  journal ← (art ← article record;
    j ← item "Journal" (Journal art);
    item "Title" (Title j));
  keywords ← (mc ← medline record;
    match MeshHeadingList mc with
    | Some l =>
        ks ← for_each (fun keyword =>
                item "DescriptorName" (DescriptorName keyword)) l;
        Ok (join ", " ks)
    | None => Ok ""
    end);
  let url := "https://www.ncbi.nlm.nih.gov/pubmed/" +:+ pmid in
  Ok {| row_PMID := pmid; row_Title := title; row_Abstract := abstract_text;
        row_Authors := authors; row_Journal := journal;
        row_Keywords := keywords; row_URL := url;
        row_Affiliations := affiliations |}.

(** The [for] loop of lines 50 to 79, started with the frame built so far. *)
Fixpoint accumulate (records : list RawRecord) (df : DataFrame)
    : result DataFrame :=
  match records with
  | [] => Ok df
  | record :: records' =>
      r ← publication_row record;
      accumulate records' (concat df (new_row r))
  end.

Definition create_publication_dataframe (records : Records) : io DataFrame :=
  df ← lift (l ← item "PubmedArticle" (PubmedArticle records);
             accumulate l empty_frame);
  _ ← makedirs "outputs";
  stamp ← strftime;
  let filename := stamp +:+ ".csv" in
  _ ← write_file (path_join "outputs" filename) (to_csv df);
  mret df.

End Builder.

(** ** The document renderer *)

(** [s.startswith(p)] *)
Fixpoint startswith (p s : string) : bool :=
  match p, s with
  | "", _ => true
  | String a p', String b s' => Ascii.eqb a b && startswith p' s'
  | String _ _, "" => false
  end.

(** [s.split(sep)] for a non-empty [sep], scanning from the left: [cur] is
    the piece being read and [skip] the number of characters of a found
    separator still to pass over. *)
Fixpoint split_from (sep : string) (skip : nat) (cur s : string) : list string :=
  match s with
  | "" => [cur]
  | String c s' =>
      match skip with
      | S k => split_from sep k cur s'
      | O =>
          if startswith sep s
          then cur :: split_from sep (String.length sep - 1) "" s'
          else split_from sep 0 (cur +:+ String c "") s'
      end
  end.

Definition split (sep s : string) : list string := split_from sep 0 "" s.

Fixpoint lstrip (s : string) : string :=
  match s with
  | "" => ""
  | String c s' => if is_space c then lstrip s' else s
  end.

Fixpoint rstrip (s : string) : string :=
  match s with
  | "" => ""
  | String c s' =>
      let t := rstrip s' in
      if String.eqb t "" && is_space c then "" else String c t
  end.

(** [s.strip()] *)
Definition strip (s : string) : string := rstrip (lstrip s).

(** [row[c]] on a row of a frame whose columns are [cols]. *)
Definition series_item (cols : list string) (cells : list cell) (c : string)
    : result cell :=
  if has_column c cols then Ok (cell_at cols cells c) else Err (KeyError c).

(** A cell inside an f-string. *)
Definition fmt (c : cell) : string := default "nan" c.

(** A cell where [re.sub] wants a string. *)
Definition as_subject (c : cell) : result string :=
  match c with Some s => Ok s | None => Err TypeError end.

(** A cell on which a string method is called. *)
Definition as_receiver (c : cell) : result string :=
  match c with Some s => Ok s | None => Err AttributeError end.

(** Line 105: the file name of a title. *)
Definition markdown_filename (title : string) : string :=
  sanitize title +:+ ".md".

(** The bracketed authors of line 111. *)
Definition author_links (authors : string) : string :=
  join "**, **"
    (map (fun author => "[[" +:+ sanitize (strip author) +:+ "]]")
         (split ", " authors)).

(** Lines 103 to 115: the path and the text of the document of one row. *)
Definition markdown_document (cols : list string) (row : list cell)
    : result (string * string) :=
  title ← series_item cols row "Title";
  filename ← (t ← as_subject title; Ok (markdown_filename t));
  let filepath := path_join "outputs" filename in
  t ← series_item cols row "Title";
  let markdown_content := "# " +:+ fmt t +:+ newline +:+ newline in
  pmid ← series_item cols row "PMID";
  let markdown_content :=
    markdown_content +:+ "**PMID:** " +:+ fmt pmid +:+ newline +:+ newline in
  journal ← series_item cols row "Journal";
  let markdown_content :=
    markdown_content +:+ "**Journal:** " +:+ fmt journal +:+ newline +:+ newline in
  authors ← (a ← series_item cols row "Authors"; as_receiver a);
  let markdown_content :=
    markdown_content +:+ "**Authors:** " +:+ author_links authors
    +:+ newline +:+ newline in
  abstract_text ← series_item cols row "Abstract";
  let markdown_content :=
    markdown_content +:+ "**Abstract:**" +:+ newline +:+ fmt abstract_text
    +:+ newline +:+ newline in
  keywords ← series_item cols row "Keywords";
  let markdown_content :=
    markdown_content +:+ "**Keywords:** " +:+ fmt keywords +:+ newline +:+ newline in
  url ← series_item cols row "URL";
  let markdown_content :=
    markdown_content +:+ "**URL:** " +:+ fmt url +:+ newline +:+ newline in
  affiliations ← series_item cols row "Affiliations";
  let markdown_content :=
    markdown_content +:+ "**Affiliations:** " +:+ fmt affiliations
    +:+ newline +:+ newline in
  Ok (filepath, markdown_content).

(** One pass of the loop of [create_publication_markdown]. *)
Definition render_row (cols : list string) (row : list cell) : io unit :=
  doc ← lift (markdown_document cols row);
  write_file doc.1 doc.2.

Fixpoint render_rows (cols : list string) (rs : list (list cell)) : io unit :=
  match rs with
  | [] => mret ()
  | row :: rs' => _ ← render_row cols row; render_rows cols rs'
  end.

Definition create_publication_markdown (publication_df : DataFrame) : io unit :=
  render_rows (columns publication_df) (rows publication_df).

(** ** Vocabulary of the statements *)

(** What is asked of an iteration order of [set(l)]: every member of [l],
    once. *)
Definition set_order (f : list string -> list string) : Prop :=
  forall l, NoDup (f l) /\ forall x, x ∈ f l <-> x ∈ l.

(** One such order, used to run the builder on examples. *)
Definition py_set (l : list string) : list string :=
  elements (list_to_set l : gset string).

(** The paths read by the loop body, as partial accessors. *)
Definition pmid_of (record : RawRecord) : option string :=
  mc ← MedlineCitation record; PMID mc.

Definition article_of (record : RawRecord) : option ArticleT :=
  mc ← MedlineCitation record; Article mc.

Definition title_of (record : RawRecord) : option string :=
  art ← article_of record; ArticleTitle art.

Definition authors_of (record : RawRecord) : option (list AuthorT) :=
  art ← article_of record; AuthorList art.

Definition journal_title_of (record : RawRecord) : option string :=
  art ← article_of record; j ← Journal art; Title j.

Definition lacks_required (record : RawRecord) : Prop :=
  pmid_of record = None \/ title_of record = None
  \/ authors_of record = None \/ journal_title_of record = None.

(** The affiliation an author contributes: that of the first entry of a
    non-empty ['AffiliationInfo'] list. *)
Definition first_affiliation (author : AuthorT) : option string :=
  info ← (l ← AffiliationInfo author; head l); Affiliation info.

(** No affiliation entry at all: the key is absent or its list is empty. *)
Definition no_affiliation (author : AuthorT) : Prop :=
  AffiliationInfo author = None \/ AffiliationInfo author = Some [].

(** The optional parts that are present are complete. *)
Definition headings_complete (mc : MedlineCitationT) : Prop :=
  match MeshHeadingList mc with
  | Some hs => Forall (fun h => is_Some (DescriptorName h)) hs
  | None => True
  end.

Definition affiliation_complete (author : AuthorT) : Prop :=
  match AffiliationInfo author with
  | Some (info :: _) => is_Some (Affiliation info)
  | Some [] | None => True
  end.

Definition is_key_error (e : exn) : Prop := exists k, e = KeyError k.

(** The frame holding the given rows: what the loop has built after them. *)
Definition frame_of (l : list PublicationRow) : DataFrame :=
  match l with
  | [] => empty_frame
  | _ :: _ => {| columns := publication_columns; rows := map cells_of l |}
  end.

(** Where the builder writes the CSV file. *)
Definition csv_path (w : World) : string :=
  path_join "outputs" (clock w +:+ ".csv").

(** "Last Fore" as the specification writes it. *)
Definition last_fore (name : string * string) : string :=
  name.1 +:+ " " +:+ name.2.

(** Sample data. *)
Definition author (last fore : string) (aff : list string) : AuthorT :=
  {| LastName := Some last; ForeName := Some fore;
     AffiliationInfo :=
       Some (map (fun a => {| Affiliation := Some a |}) aff) |}.

Definition citation (pmid title : string) (authors : list AuthorT) : RawRecord :=
  {| MedlineCitation := Some
       {| PMID := Some pmid;
          Article := Some
            {| ArticleTitle := Some title; Abstract := None;
               AuthorList := Some authors;
               Journal := Some {| Title := Some "Burns" |} |};
          MeshHeadingList := None |} |}.

Definition fresh_world : World :=
  {| dirs := ∅; files := ∅; locked := ∅; clock := "202401011200" |}.

(** A world in which the CSV file of the minute may not be written. *)
Definition locked_world : World :=
  {| dirs := {["outputs"]}; files := ∅;
     locked := {["outputs/202401011200.csv"]}; clock := "202401011200" |}.

(** A world that has the output directory and nothing else. *)
Definition outputs_world : World :=
  {| dirs := {["outputs"]}; files := ∅; locked := ∅; clock := "202401011200" |}.

(** ** More vocabulary: paths and text *)

Definition is_slash (c : ascii) : bool := (code c =? 47)%nat.

(** [sep in s] *)
Fixpoint contains (sep s : string) : bool :=
  startswith sep s
  || match s with
     | "" => false
     | String _ s' => contains sep s'
     end.

Fixpoint last_char (s : string) : option ascii :=
  match s with
  | "" => None
  | String c s' =>
      match last_char s' with
      | Some d => Some d
      | None => Some c
      end
  end.

(** Lines 105 and 106: where the document of a title goes. *)
Definition document_path (title : string) : string :=
  path_join "outputs" (markdown_filename title).

(** The world an effectful call leaves, however it ends. *)
Definition world_after {A : Type} (o : outcome A) : World :=
  match o with
  | Done _ w => w
  | Raised _ w => w
  end.

(** Sample records with every optional part. *)
Definition heading (name : string) : MeshHeadingT :=
  {| DescriptorName := Some name |}.

Definition full_citation (pmid title : string) (text : list string)
    (authors : list AuthorT) (headings : list MeshHeadingT) : RawRecord :=
  {| MedlineCitation := Some
       {| PMID := Some pmid;
          Article := Some
            {| ArticleTitle := Some title;
               Abstract := Some {| AbstractText := Some text |};
               AuthorList := Some authors;
               Journal := Some {| Title := Some "Burns" |} |};
          MeshHeadingList := Some headings |} |}.

Definition sample_row (title : string) : PublicationRow :=
  {| row_PMID := "1"; row_Title := title; row_Abstract := "";
     row_Authors := "Doe J"; row_Journal := "Burns"; row_Keywords := "";
     row_URL := "https://www.ncbi.nlm.nih.gov/pubmed/1";
     row_Affiliations := "" |}.

(** Writing documents, given as pairs of a path and a text, one after the
    other into the files. *)
Definition write_all (docs : list (string * string)) (m : gmap string string)
    : gmap string string :=
  foldl (fun m d => <[d.1 := d.2]> m) m docs.

(** The text a path gets from a list of documents: that of the last
    document with this path, or [old] when there is none. *)
Definition latest (p : string) (old : option string)
    (docs : list (string * string)) : option string :=
  foldl (fun acc d => if decide (d.1 = p) then Some d.2 else acc) old docs.

(** The link the renderer writes for one author name. *)
Definition author_link (name : string) : string :=
  "[[" +:+ sanitize (strip name) +:+ "]]".

(** ** The Entrez client and the main block

    The server is a parameter: what it answers to a request, or [None] when
    the call (or the parsing of its answer) raises.  The session holds the
    module-level [Entrez.email] and the requests sent so far. *)

Record SearchRecord := { IdList : option (list string) }.

Inductive request : Type :=
  | ESearch (address db term : string) (retmax : nat)
  | EFetch (address db : string) (ids : list string) (retmode : string).


Record Session := {
  email : string;
  sent : list request }.

Inductive failure : Type :=
  | Unreachable
  | Python (e : exn).

Inductive net_outcome (A : Type) : Type :=
  | Received (a : A) (s : Session)
  | Lost (f : failure) (s : Session).
Arguments Received {A} a s.
Arguments Lost {A} f s.

Definition net (A : Type) : Type := Session -> net_outcome A.

#[global] Instance net_ret : MRet net := fun A a s => Received a s.
#[global] Instance net_bind : MBind net := fun A B f m s =>
  match m s with
  | Received a s' => f a s'
  | Lost e s' => Lost e s'
  end.

(** [Entrez.email = address] *)
Definition set_email (address : string) : net unit := fun s =>
  Received () {| email := address; sent := sent s |}.

Definition get_email : net string := fun s => Received (email s) s.

(** A pure computation in [net]. *)
Definition net_lift {A : Type} (r : result A) : net A := fun s =>
  match r with
  | Ok a => Received a s
  | Err e => Lost (Python e) s
  end.

(** How a run of the main block ends. *)
Inductive run_outcome : Type :=
  | Completed (s : Session) (w : World)
  | Aborted (f : failure) (s : Session) (w : World).

(** The address and the two requests of the main block. *)
Definition placeholder : string := "your.email@example.com".

Definition search_request (ex_query : string) : request :=
  ESearch placeholder "pubmed" ex_query 50.

Definition fetch_request (ids : list string) : request :=
  EFetch placeholder "pubmed" ids "xml".

(** Sample session and servers. *)
Definition configured_session : Session :=
  {| email := "owner@example.org"; sent := [] |}.

Definition silent_server {A : Type} (rq : request) : option A := None.




Definition run_world (o : run_outcome) : World :=
  match o with
  | Completed _ w => w
  | Aborted _ _ w => w
  end.

Section Client.

Variable search_reply : request -> option SearchRecord.
Variable fetch_reply : request -> option Records.
Variable set_iter : list string -> list string.

(** Send a request: it is logged, then answered or lost. *)
Definition call {A : Type} (reply : request -> option A) (rq : request) : net A :=
  fun s =>
    let s' := {| email := email s; sent := sent s ++ [rq] |} in
    match reply rq with
    | Some a => Received a s'
    | None => Lost Unreachable s'
    end.

(** [Entrez.read(Entrez.esearch(db=db, term=term, retmax=retmax))] *)
Definition esearch (db term : string) (retmax : nat) : net SearchRecord :=
  address ← get_email; call search_reply (ESearch address db term retmax).

(** [Entrez.read(Entrez.efetch(db=db, id=ids, retmode=retmode))] *)
Definition efetch (db : string) (ids : list string) (retmode : string) : net Records :=
  address ← get_email; call fetch_reply (EFetch address db ids retmode).

Definition fetch_pubmed_data (query : string) (max_results : nat) : net (list string) :=
  _ ← set_email "your.email@example.com";
  record ← esearch "pubmed" query max_results;
  id_list ← net_lift (item "IdList" (IdList record));
  mret id_list.

Definition fetch_article_details (pubmed_ids : list string) : net Records :=
  records ← efetch "pubmed" pubmed_ids "xml";
  mret records.

(** The block under [if __name__ == "__main__"], for the query it is given;
    [fetch_pubmed_data] is called with its default of 50 results. *)
Definition main (ex_query : string) (s : Session) (w : World) : run_outcome :=
  match fetch_pubmed_data ex_query 50 s with
  | Lost f s1 => Aborted f s1 w
  | Received ex_ids s1 =>
      match fetch_article_details ex_ids s1 with
      | Lost f s2 => Aborted f s2 w
      | Received ex_records s2 =>
          match create_publication_dataframe set_iter ex_records w with
          | Raised e w1 => Aborted (Python e) s2 w1
          | Done ex_df w1 =>
              match create_publication_markdown ex_df w1 with
              | Raised e w2 => Aborted (Python e) s2 w2
              | Done _ w2 => Completed s2 w2
              end
          end
      end
  end.

End Client.

(** * Properties *)

(** ** Strings *)

Lemma filter_string_idem (keep : ascii -> bool) (s : string) :
  filter_string keep (filter_string keep s) = filter_string keep s.
Proof.
  induction s as [|c s IH]; simpl; [done|].
  destruct (keep c) eqn:Hc; simpl; rewrite ?Hc, IH; done.
Qed.

Lemma filter_string_keeps (keep : ascii -> bool) (s : string) :
  any_char (fun c => negb (keep c)) (filter_string keep s) = false.
Proof.
  induction s as [|c s IH]; simpl; [done|].
  destruct (keep c) eqn:Hc; simpl; rewrite ?Hc; done.
Qed.

(** ** The date extractor *)

(** C1 (as amended): a date mapping with a 'Year' key gives year, month and
    day joined by hyphens, month and day being "01" when their keys are
    absent; a mapping without 'Year' gives the sentinel "No date found",
    with a capital N. *)
Theorem parse_date_from_pubdate_spec (pubdate : gmap string string) :
  (forall year, pubdate !! "Year" = Some year ->
     parse_date_from_pubdate pubdate
     = join "-" [year; default "01" (pubdate !! "Month");
                 default "01" (pubdate !! "Day")])
  /\ ("Year" ∉ dom pubdate ->
      parse_date_from_pubdate pubdate = "No date found")
  /\ parse_date_from_pubdate {["Year" := "2023"]} = "2023-01-01".
Proof.
  unfold parse_date_from_pubdate. split; [|split].
  - intros year ->. reflexivity.
  - intros Hdom. apply not_elem_of_dom in Hdom. rewrite Hdom. reflexivity.
  - vm_compute. reflexivity.
Qed.

Lemma parse_date_from_pubdate_spec_witness :
  parse_date_from_pubdate (<["Year" := "1999"]> (<["Day" := "31"]> ∅))
  = "1999-01-31"
  /\ parse_date_from_pubdate (<["Month" := "12"]> ∅) = "No date found".
Proof.
  split.
  - rewrite (proj1 (parse_date_from_pubdate_spec
                      (<["Year" := "1999"]> (<["Day" := "31"]> ∅))) "1999").
    + vm_compute. reflexivity.
    + vm_compute. reflexivity.
  - apply (proj1 (proj2 (parse_date_from_pubdate_spec (<["Month" := "12"]> ∅)))).
    apply not_elem_of_dom. vm_compute. reflexivity.
Defined.

(** C1, as the claim words it, fails: the sentinel is not "no date found". *)
Lemma parse_date_sentinel_is_capitalised :
  ("Year" ∉ dom (∅ : gmap string string))
  /\ parse_date_from_pubdate ∅ <> "no date found".
Proof.
  split.
  - apply not_elem_of_dom. reflexivity.
  - vm_compute. discriminate.
Qed.

(** ** File names *)

(** C9: removing the characters that are neither alphanumeric nor white
    space is idempotent, and the title "Burn Patients: A Review!" gets the
    file name "Burn Patients A Review.md". *)
Theorem sanitize_idempotent :
  (forall s, sanitize (sanitize s) = sanitize s)
  /\ markdown_filename "Burn Patients: A Review!" = "Burn Patients A Review.md".
Proof.
  split.
  - intros s. apply filter_string_idem.
  - vm_compute. reflexivity.
Qed.

(** ** The result monad *)

Lemma bind_Ok {A B : Type} (m : result A) (f : A -> result B) (b : B) :
  m ≫= f = Ok b -> exists a, m = Ok a /\ f a = Ok b.
Proof. destruct m as [a|e]; simpl; [eauto|discriminate]. Qed.

Lemma bind_Err {A B : Type} (m : result A) (f : A -> result B) (e : exn) :
  m ≫= f = Err e -> m = Err e \/ exists a, m = Ok a /\ f a = Err e.
Proof. destruct m as [a|e']; simpl; [eauto|]. intros [= ->]. by left. Qed.

Lemma item_Ok {A : Type} (k : string) (field : option A) (v : A) :
  item k field = Ok v <-> field = Some v.
Proof. destruct field; simpl; split; congruence. Qed.

Lemma item_Err {A : Type} (k : string) (field : option A) (e : exn) :
  item k field = Err e <-> field = None /\ e = KeyError k.
Proof.
  destruct field; simpl; split.
  - discriminate.
  - intros [? _]. discriminate.
  - intros [= <-]. done.
  - intros [_ ->]. done.
Qed.

Ltac inv_bind :=
  repeat match goal with
    | H : _ ≫= _ = Ok _ |- _ =>
        let a := fresh "v" in
        let E := fresh "E" in
        apply bind_Ok in H as (a & E & H)
    | H : item _ _ = Ok _ |- _ => apply item_Ok in H
    | H : Ok _ = Ok _ |- _ => injection H as H
    end.

Lemma for_each_Ok {A B : Type} (f : A -> result B) (l : list A) (ys : list B) :
  for_each f l = Ok ys <-> Forall2 (fun x y => f x = Ok y) l ys.
Proof.
  revert ys. induction l as [|x l IH]; intros ys; simpl.
  - split.
    + intros [= <-]. constructor.
    + intros H. inversion H. done.
  - split.
    + intros H. inv_bind. subst ys. constructor; [done|]. by apply IH.
    + intros H. inversion H as [|? y ? ys' Hx Hl]; subst.
      rewrite Hx. simpl. apply IH in Hl. rewrite Hl. done.
Qed.

(** ** Data frames *)

Lemma reindex_cells_of (r : PublicationRow) :
  reindex publication_columns publication_columns (cells_of r) = cells_of r.
Proof. reflexivity. Qed.

Lemma concat_new_row (prev : list PublicationRow) (r : PublicationRow) :
  concat (frame_of prev) (new_row r) = frame_of (prev ++ [r]).
Proof.
  destruct prev as [|p prev]; [reflexivity|].
  unfold concat, frame_of; simpl app. cbn [columns rows new_row].
  change (publication_columns ++ _) with publication_columns.
  f_equal. cbn [map]. rewrite map_app, map_map. f_equal.
Qed.

Lemma rows_frame_of (l : list PublicationRow) :
  rows (frame_of l) = map cells_of l.
Proof. by destruct l. Qed.

(** ** The dataset builder *)

Section BuilderFacts.

Variable set_iter : list string -> list string.

(** The loop appends one row per record, in order, and stops at the
    first record whose row cannot be computed. *)
Lemma accumulate_frame_of (records : list RawRecord) (prev : list PublicationRow) :
  accumulate set_iter records (frame_of prev)
  = l ← for_each (publication_row set_iter) records; Ok (frame_of (prev ++ l)).
Proof.
  revert prev. induction records as [|record records IH]; intros prev; simpl.
  - by rewrite app_nil_r.
  - destruct (publication_row set_iter record) as [r|e]; simpl; [|done].
    rewrite concat_new_row, IH.
    destruct (for_each _ records) as [l|e]; simpl; [|done].
    by rewrite <- app_assoc.
Qed.

(** What a returned data frame tells about the run. *)
Lemma create_publication_dataframe_Done (records : Records) (w w' : World)
    (df : DataFrame) :
  create_publication_dataframe set_iter records w = Done df w' ->
  exists (l : list RawRecord) (rs : list PublicationRow) (w1 : World),
    PubmedArticle records = Some l
    /\ Forall2 (fun record r => publication_row set_iter record = Ok r) l rs
    /\ df = frame_of rs
    /\ makedirs "outputs" w = Done () w1
    /\ write_file (csv_path w) (to_csv df) w1 = Done () w'.
Proof.
  unfold create_publication_dataframe, csv_path.
  unfold mbind, io_bind, lift, strftime, mret, io_ret.
  destruct (PubmedArticle records) as [l|]; simpl; [|discriminate].
  change empty_frame with (frame_of []). rewrite accumulate_frame_of.
  destruct (for_each _ l) as [rs|e] eqn:Hrs; simpl; [|discriminate].
  destruct (makedirs "outputs" w) as [[] w1|e w1] eqn:Hmk; [|discriminate].
  assert (clock w1 = clock w) as ->.
  { unfold makedirs in Hmk. repeat case_match; naive_solver. }
  destruct (write_file _ _ w1) as [[] w2|e w2] eqn:Hwr; [|discriminate].
  intros [= <- <-]. exists l, rs, w1.
  split; [done|]. split; [by apply for_each_Ok|]. done.
Qed.

End BuilderFacts.

(** ** One record *)

Section RowFacts.

Variable set_iter : list string -> list string.

(** What a computed row tells about the record it comes from. *)
Lemma publication_row_Ok (record : RawRecord) (r : PublicationRow) :
  publication_row set_iter record = Ok r ->
  exists mc art l j affs,
    MedlineCitation record = Some mc /\ Article mc = Some art
    /\ AuthorList art = Some l /\ Journal art = Some j
    /\ PMID mc = Some (row_PMID r)
    /\ ArticleTitle art = Some (row_Title r)
    /\ Title j = Some (row_Journal r)
    /\ row_Authors r = join ", " (map author_name l)
    /\ collect_affiliations l [] = Ok affs
    /\ row_Affiliations r = join "; " (set_iter affs)
    /\ (Abstract art = None -> row_Abstract r = "")
    /\ (MeshHeadingList mc = None -> row_Keywords r = "")
    /\ row_URL r = "https://www.ncbi.nlm.nih.gov/pubmed/" +:+ row_PMID r.
Proof.
  unfold publication_row, article, medline. intros H.
  inv_bind. subst r. simplify_eq/=.
  repeat match goal with
    | H : item _ _ ≫= _ = Ok _ |- _ => apply bind_Ok in H as (? & ?%item_Ok & H)
    end.
  simplify_eq/=.
  do 5 eexists. repeat split; eauto.
  - intros Habs. by destruct (Abstract _); simplify_eq.
  - intros Hmesh. by destruct (MeshHeadingList _); simplify_eq.
Qed.

Lemma collect_affiliations_Ok (l : list AuthorT) (acc affs : list string) :
  collect_affiliations l acc = Ok affs ->
  affs = acc ++ omap first_affiliation l.
Proof.
  revert acc. induction l as [|a l IH]; intros acc; simpl.
  - intros [= <-]. by rewrite app_nil_r.
  - unfold first_affiliation at 1.
    destruct (AffiliationInfo a) as [[|info infos]|]; simpl; [by apply IH| |by apply IH].
    destruct (Affiliation info) as [aff|]; simpl; [|discriminate].
    intros H%IH. by rewrite <- app_assoc in H.
Qed.

Lemma collect_affiliations_total (l : list AuthorT) (acc : list string) :
  Forall affiliation_complete l ->
  exists affs, collect_affiliations l acc = Ok affs.
Proof.
  intros Hl. revert acc. induction Hl as [|a l Ha _ IH]; intros acc; simpl.
  - eauto.
  - unfold affiliation_complete in Ha.
    destruct (AffiliationInfo a) as [[|info infos]|]; [apply IH| |apply IH].
    destruct Ha as [aff ->]. simpl. apply IH.
Qed.

Lemma collect_affiliations_Err (l : list AuthorT) (acc : list string) (e : exn) :
  collect_affiliations l acc = Err e -> is_key_error e.
Proof.
  revert acc. induction l as [|a l IH]; intros acc; simpl; [discriminate|].
  destruct (AffiliationInfo a) as [[|info infos]|]; [apply IH| |apply IH].
  destruct (Affiliation info) as [aff|]; simpl; [apply IH|].
  intros [= <-]. by eexists.
Qed.

Lemma for_each_item_Err {A B : Type} (k : string) (get : A -> option B)
    (l : list A) (e : exn) :
  for_each (fun x => item k (get x)) l = Err e -> is_key_error e.
Proof.
  induction l as [|x l IH]; simpl; [discriminate|].
  destruct (get x); simpl; [|intros [= <-]; by eexists].
  destruct (for_each _ l); simpl; [discriminate|].
  intros [= <-]. by apply IH.
Qed.

(** Every exception of the loop body is a [KeyError]. *)
Lemma publication_row_Err (record : RawRecord) (e : exn) :
  publication_row set_iter record = Err e -> is_key_error e.
Proof.
  unfold publication_row, article, medline.
  destruct (MedlineCitation record) as [mc|]; simpl; [|intros [= <-]; by eexists].
  destruct (PMID mc); simpl; [|intros [= <-]; by eexists].
  destruct (Article mc) as [art|]; simpl; [|intros [= <-]; by eexists].
  destruct (ArticleTitle art); simpl; [|intros [= <-]; by eexists].
  destruct (Abstract art) as [[[text|]]|]; simpl.
  all: destruct (AuthorList art) as [l|]; simpl; [|intros [= <-]; by eexists].
  all: destruct (collect_affiliations l []) eqn:Hc; simpl;
    [|intros [= <-]; by eapply collect_affiliations_Err].
  all: destruct (Journal art) as [[[jt|]]|]; simpl; try (intros [= <-]; by eexists).
  all: destruct (MeshHeadingList mc) as [hs|]; simpl; try discriminate.
  all: destruct (for_each _ hs) eqn:Hk; simpl; try discriminate.
  all: intros [= <-]; by eapply for_each_item_Err.
Qed.

(** A record that lacks a required key has no row. *)
Lemma publication_row_lacks (record : RawRecord) :
  lacks_required record ->
  exists k, publication_row set_iter record = Err (KeyError k).
Proof.
  intros Hlack.
  destruct (publication_row set_iter record) as [r|e] eqn:Hrow.
  - exfalso. apply publication_row_Ok in Hrow
      as (mc & art & l & j & affs & Hmc & Hart & Hl & Hj & Hp & Ht & Hjt & _).
    unfold lacks_required, pmid_of, title_of, authors_of, journal_title_of,
      article_of in Hlack.
    rewrite Hmc in Hlack. simpl in Hlack. rewrite Hart, Hp in Hlack.
    simpl in Hlack. rewrite Ht, Hl, Hj in Hlack. simpl in Hlack.
    rewrite Hjt in Hlack. destruct Hlack as [?|[?|[?|?]]]; discriminate.
  - apply publication_row_Err in Hrow as [k ->]. eauto.
Qed.

(** A record with its required keys, whose optional parts are absent or
    complete, has a row. *)
Lemma publication_row_total (record : RawRecord) (mc : MedlineCitationT)
    (art : ArticleT) (l : list AuthorT) (j : JournalT) :
  MedlineCitation record = Some mc -> Article mc = Some art ->
  AuthorList art = Some l -> Journal art = Some j ->
  is_Some (PMID mc) -> is_Some (ArticleTitle art) -> is_Some (Title j) ->
  headings_complete mc -> Forall affiliation_complete l ->
  exists r, publication_row set_iter record = Ok r.
Proof.
  intros Hmc Hart Hl Hj [pmid Hp] [title Ht] [jt Hjt] Hmesh Haff.
  unfold publication_row, article, medline.
  rewrite Hmc. simpl. rewrite Hp, Hart. simpl. rewrite Ht. simpl.
  destruct (collect_affiliations_total l [] Haff) as [affs Hc].
  assert (exists ks, match MeshHeadingList mc with
    | Some hs => for_each (fun keyword =>
                   item "DescriptorName" (DescriptorName keyword)) hs
                 ≫= fun ks => Ok (join ", " ks)
    | None => Ok "" end = Ok ks) as [ks Hks].
  { unfold headings_complete in Hmesh.
    destruct (MeshHeadingList mc) as [hs|]; [|eauto].
    induction Hmesh as [|h hs [d Hd] _ [ks IH]]; simpl; [eauto|].
    rewrite Hd. simpl. destruct (for_each _ hs); simpl in *; [eauto|done]. }
  rewrite Hks.
  destruct (Abstract art) as [[[text|]]|]; simpl;
    rewrite Hl; simpl; rewrite Hc; simpl; rewrite Hj; simpl; rewrite Hjt;
    simpl; eauto.
Qed.

End RowFacts.

(** ** Iteration orders of a set *)

Lemma py_set_order : set_order py_set.
Proof.
  intros l. unfold py_set. split.
  - apply NoDup_elements.
  - intros x. rewrite elem_of_elements. apply elem_of_list_to_set.
Qed.

Lemma set_order_nil (f : list string -> list string) :
  set_order f -> f [] = [].
Proof.
  intros Hord. destruct (Hord []) as [_ Hin].
  destruct (f []) as [|x l]; [done|].
  exfalso. apply (not_elem_of_nil x). apply Hin. left.
Qed.

Lemma for_each_Err_elem {A B : Type} (f : A -> result B) (l : list A) (x : A) :
  x ∈ l -> (exists e, f x = Err e) ->
  exists y e, y ∈ l /\ f y = Err e /\ for_each f l = Err e.
Proof.
  intros Hx [e He]. induction Hx as [x l|x z l Hx IH]; simpl.
  - exists x, e. rewrite He. split; [left|done].
  - destruct (f z) as [b|e'] eqn:Hz; simpl.
    + destruct (IH He) as (y & e' & Hy & Hfy & ->). exists y, e'.
      split; [by right|done].
    + exists z, e'. split; [left|done].
Qed.

(** ** The claims about one row *)

(** Identify the parts found by [publication_row_Ok] with the given ones. *)
Ltac same_parts Hmc Hmc' Hart Hart' Hl Hl' :=
  rewrite Hmc in Hmc'; injection Hmc' as <-;
  rewrite Hart in Hart'; injection Hart' as <-;
  rewrite Hl in Hl'; injection Hl' as <-.

(** C4: with the required keys present, the row exists, and its Abstract is
    empty when the abstract is absent, its Keywords are empty when the
    heading list is absent, its Affiliations are empty when no author has
    an affiliation entry, and its Authors are empty when the author list
    is empty; absent optional keys raise nothing. *)
Theorem optional_keys_default (set_iter : list string -> list string)
    (record : RawRecord) (mc : MedlineCitationT) (art : ArticleT)
    (l : list AuthorT) (j : JournalT) :
  set_order set_iter ->
  MedlineCitation record = Some mc -> Article mc = Some art ->
  AuthorList art = Some l -> Journal art = Some j ->
  is_Some (PMID mc) -> is_Some (ArticleTitle art) -> is_Some (Title j) ->
  headings_complete mc -> Forall affiliation_complete l ->
  exists r, publication_row set_iter record = Ok r
    /\ (Abstract art = None -> row_Abstract r = "")
    /\ (MeshHeadingList mc = None -> row_Keywords r = "")
    /\ (Forall no_affiliation l -> row_Affiliations r = "")
    /\ (l = [] -> row_Authors r = "").
Proof.
  intros Hord Hmc Hart Hl Hj Hp Ht Hjt Hmesh Haff.
  destruct (publication_row_total set_iter record mc art l j) as [r Hr]; try done.
  exists r. split; [done|].
  apply publication_row_Ok in Hr
    as (mc' & art' & l' & j' & affs & Hmc' & Hart' & Hl' & _ & _ & _ & _
        & Hau & Hc & Haf & Habs & Hkw & _).
  same_parts Hmc Hmc' Hart Hart' Hl Hl'. repeat split; try done.
  - intros Hno. apply collect_affiliations_Ok in Hc. simpl in Hc.
    assert (omap first_affiliation l = []) as Hnil.
    { clear -Hno. induction Hno as [|a l [Ha|Ha] _ IH]; simpl; [done| |];
        unfold first_affiliation at 1; rewrite Ha; simpl; done. }
    rewrite Haf, Hc, Hnil. by rewrite set_order_nil.
  - intros ->. by rewrite Hau.
Qed.

(** C6: the Authors cell is the comma-space join, in the order of the
    author list, of last name, one space, fore name (an absent name counts
    as the empty string). *)
Theorem authors_joined (set_iter : list string -> list string)
    (record : RawRecord) (r : PublicationRow) (mc : MedlineCitationT)
    (art : ArticleT) (l : list AuthorT) :
  publication_row set_iter record = Ok r ->
  MedlineCitation record = Some mc -> Article mc = Some art ->
  AuthorList art = Some l ->
  row_Authors r
  = join ", " (map (fun a => last_fore (default "" (LastName a),
                                        default "" (ForeName a))) l)
  /\ forall names,
       Forall2 (fun a n => LastName a = Some n.1 /\ ForeName a = Some n.2)
               l names ->
       row_Authors r = join ", " (map last_fore names).
Proof.
  intros Hr Hmc Hart Hl.
  apply publication_row_Ok in Hr
    as (mc' & art' & l' & j' & affs & Hmc' & Hart' & Hl' & _ & _ & _ & _
        & Hau & _).
  same_parts Hmc Hmc' Hart Hart' Hl Hl'. rewrite Hau. split; [done|].
  intros names Hnames. f_equal.
  clear -Hnames.
  induction Hnames as [|a n l names [Hln Hfn] _ IH]; simpl; [done|].
  f_equal; [|exact IH].
  unfold author_name, last_fore. by rewrite Hln, Hfn.
Qed.

(** C7: the Affiliations cell joins a list without repetition whose members
    are exactly the first affiliations of the authors, so an affiliation
    shared by several authors is one entry of the join. *)
Theorem affiliations_deduplicated (set_iter : list string -> list string)
    (record : RawRecord) (r : PublicationRow) (mc : MedlineCitationT)
    (art : ArticleT) (l : list AuthorT) :
  set_order set_iter ->
  publication_row set_iter record = Ok r ->
  MedlineCitation record = Some mc -> Article mc = Some art ->
  AuthorList art = Some l ->
  exists entries,
    row_Affiliations r = join "; " entries
    /\ NoDup entries
    /\ (forall a, a ∈ entries <->
          exists author, author ∈ l /\ first_affiliation author = Some a)
    /\ (forall author a, author ∈ l -> first_affiliation author = Some a ->
          count_occ String.string_dec entries a = 1).
Proof.
  intros Hord Hr Hmc Hart Hl.
  apply publication_row_Ok in Hr
    as (mc' & art' & l' & j' & affs & Hmc' & Hart' & Hl' & _ & _ & _ & _
        & _ & Hc & Haf & _).
  same_parts Hmc Hmc' Hart Hart' Hl Hl'.
  apply collect_affiliations_Ok in Hc. simpl in Hc. subst affs.
  destruct (Hord (omap first_affiliation l)) as [Hnd Hin].
  exists (set_iter (omap first_affiliation l)).
  assert (forall a, a ∈ set_iter (omap first_affiliation l) <->
            exists author, author ∈ l /\ first_affiliation author = Some a) as Hmem.
  { intros a. rewrite Hin. apply list_elem_of_omap. }
  repeat split; try done; try apply Hmem.
  intros author a Hauthor Ha.
  apply NoDup_count_occ'; [by apply NoDup_ListNoDup|].
  apply list_elem_of_In, Hmem. eauto.
Qed.

Lemma optional_keys_default_witness :
  exists r, publication_row py_set (citation "1" "On burns" []) = Ok r
    /\ row_Abstract r = "" /\ row_Keywords r = ""
    /\ row_Affiliations r = "" /\ row_Authors r = "".
Proof.
  destruct (optional_keys_default py_set (citation "1" "On burns" [])
              _ _ [] _ py_set_order eq_refl eq_refl eq_refl eq_refl)
    as (r & Hr & Hab & Hkw & Haf & Hau).
  - simpl. eexists. reflexivity.
  - simpl. eexists. reflexivity.
  - simpl. eexists. reflexivity.
  - exact I.
  - constructor.
  - exists r. split; [exact Hr|]. split; [apply Hab; reflexivity|].
    split; [apply Hkw; reflexivity|]. split; [apply Haf; constructor|].
    apply Hau. reflexivity.
Defined.

Lemma authors_joined_witness :
  exists r,
    publication_row py_set
      (citation "1" "On burns" [author "Doe" "J" []; author "Roe" "A" []]) = Ok r
    /\ row_Authors r = "Doe J, Roe A".
Proof.
  eexists. split; [vm_compute; reflexivity|].
  refine (proj2 (authors_joined py_set
                   (citation "1" "On burns" [author "Doe" "J" []; author "Roe" "A" []])
                   _ _ _ _ _ eq_refl eq_refl eq_refl)
                [("Doe", "J"); ("Roe", "A")] _).
  - vm_compute. reflexivity.
  - repeat constructor.
Defined.

Lemma affiliations_deduplicated_witness :
  exists r,
    publication_row py_set
      (citation "1" "On burns"
         [author "Doe" "J" ["MIT"]; author "Roe" "A" ["MIT"]]) = Ok r
    /\ exists entries,
         row_Affiliations r = join "; " entries
         /\ count_occ String.string_dec entries "MIT" = 1.
Proof.
  eexists. split; [vm_compute; reflexivity|].
  destruct (affiliations_deduplicated py_set
              (citation "1" "On burns"
                 [author "Doe" "J" ["MIT"]; author "Roe" "A" ["MIT"]])
              _ _ _ _ py_set_order ltac:(vm_compute; reflexivity)
              eq_refl eq_refl eq_refl)
    as (entries & Hjoin & _ & _ & Hone).
  exists entries. split; [exact Hjoin|].
  apply (Hone (author "Roe" "A" ["MIT"])).
  - right. left.
  - reflexivity.
Defined.

(** Two authors with the same affiliation: the cell holds it once, whatever
    the iteration order of the set. *)
Example shared_affiliation_once (set_iter : list string -> list string) :
  set_order set_iter ->
  exists r,
    publication_row set_iter
      (citation "1" "On burns"
         [author "Doe" "J" ["MIT"]; author "Roe" "A" ["MIT"]]) = Ok r
    /\ row_Affiliations r = "MIT".
Proof.
  intros Hord. eexists. split; [reflexivity|]. simpl.
  destruct (Hord ["MIT"; "MIT"]) as [Hnd Hin].
  assert (set_iter ["MIT"; "MIT"] = ["MIT"]) as ->; [|reflexivity].
  assert (forall x, x ∈ set_iter ["MIT"; "MIT"] -> x = "MIT") as Hall.
  { intros x Hx%Hin.
    apply elem_of_cons in Hx as [->|Hx]; [done|].
    apply elem_of_cons in Hx as [->|Hx]; [done|].
    by apply elem_of_nil in Hx. }
  assert ("MIT" ∈ set_iter ["MIT"; "MIT"]) as Hmit by (apply Hin; left).
  destruct (set_iter ["MIT"; "MIT"]) as [|x [|y t]].
  - by apply elem_of_nil in Hmit.
  - f_equal. apply Hall. left.
  - exfalso. apply NoDup_cons in Hnd as [Hx _]. apply Hx.
    rewrite (Hall x), (Hall y); [left|right; left|left].
Qed.

(** ** The claims about the whole dataset *)

(** C8: a returned data frame has one row per record of the collection, and
    the row at each position holds the cells computed from the record at the
    same position. *)
Theorem rows_follow_records (set_iter : list string -> list string)
    (records : Records) (w w' : World) (df : DataFrame) :
  create_publication_dataframe set_iter records w = Done df w' ->
  exists l,
    PubmedArticle records = Some l
    /\ length (rows df) = length l
    /\ forall i record, l !! i = Some record ->
         exists r, publication_row set_iter record = Ok r
                   /\ rows df !! i = Some (cells_of r).
Proof.
  intros (l & rs & w1 & Hl & Hrs & -> & _)%create_publication_dataframe_Done.
  exists l. split; [done|]. rewrite rows_frame_of. split.
  - rewrite length_map. symmetry. by eapply Forall2_length.
  - intros i record Hi.
    destruct (Forall2_lookup_l _ _ _ _ _ Hrs Hi) as (r & Hr & Hrow).
    exists r. split; [done|]. by rewrite list_lookup_fmap, Hr.
Qed.

Lemma rows_follow_records_witness :
  exists df w',
    create_publication_dataframe py_set
      {| PubmedArticle := Some [citation "1" "On burns" []; citation "2" "On scars" []] |}
      fresh_world = Done df w'
    /\ length (rows df) = 2
    /\ exists r, publication_row py_set (citation "2" "On scars" []) = Ok r
                 /\ rows df !! 1 = Some (cells_of r).
Proof.
  eexists _, _. split; [vm_compute; reflexivity|].
  destruct (rows_follow_records py_set
              {| PubmedArticle := Some [citation "1" "On burns" []; citation "2" "On scars" []] |}
              fresh_world _ _ ltac:(vm_compute; reflexivity))
    as (l & Hl & Hlen & Hrows).
  injection Hl as <-. split; [exact Hlen|].
  apply (Hrows 1). reflexivity.
Defined.

(** C10: if some record of the collection lacks the PMID, the article
    title, the author list or the journal title, the builder raises a
    [KeyError]; it returns no data frame and leaves the file system as it
    was. *)
Theorem required_keys_raise (set_iter : list string -> list string)
    (records : Records) (l : list RawRecord) (record : RawRecord) (w : World) :
  PubmedArticle records = Some l -> record ∈ l -> lacks_required record ->
  exists k, create_publication_dataframe set_iter records w = Raised (KeyError k) w.
Proof.
  intros Hl Hin Hlack.
  destruct (for_each_Err_elem (publication_row set_iter) l record Hin)
    as (y & e & _ & Hy & Hall).
  { destruct (publication_row_lacks set_iter record Hlack) as [k Hk]. eauto. }
  apply publication_row_Err in Hy as [k ->]. exists k.
  unfold create_publication_dataframe, mbind, io_bind, lift.
  rewrite Hl. simpl. change empty_frame with (frame_of []).
  rewrite accumulate_frame_of, Hall. reflexivity.
Qed.

Lemma required_keys_raise_witness :
  exists k,
    create_publication_dataframe py_set
      {| PubmedArticle := Some
           [citation "1" "On burns" [];
            {| MedlineCitation := Some
                 {| PMID := Some "2";
                    Article := Some
                      {| ArticleTitle := Some "On scars"; Abstract := None;
                         AuthorList := None;
                         Journal := Some {| Title := Some "Burns" |} |};
                    MeshHeadingList := None |} |}] |}
      fresh_world = Raised (KeyError k) fresh_world.
Proof.
  eapply required_keys_raise.
  - reflexivity.
  - right. left.
  - right. right. left. reflexivity.
Defined.

(** ** Writing files *)

Lemma makedirs_clock (d : string) (w w1 : World) :
  makedirs d w = Done () w1 -> clock w1 = clock w.
Proof.
  unfold makedirs. intros H.
  destruct (dir_exists w d); [by injection H as <-|].
  destruct (bool_decide _); [discriminate|].
  destruct (bool_decide _); [discriminate|].
  by injection H as <-.
Qed.

Lemma write_file_Done (path text : string) (w w' : World) :
  write_file path text w = Done () w' ->
  files w' = <[path := text]> (files w).
Proof.
  unfold write_file. intros H.
  destruct (_ || _); [discriminate|].
  destruct (negb _); [discriminate|].
  destruct (bool_decide _); [discriminate|].
  by injection H as <-.
Qed.

Lemma write_file_allowed (path text : string) (w : World) :
  basename path <> "" -> path ∉ dirs w ->
  dir_exists w (dirname path) = true -> path ∉ locked w ->
  exists w', write_file path text w = Done () w'
             /\ files w' = <[path := text]> (files w).
Proof.
  intros Hbase Hdir Hparent Hlock. unfold write_file.
  apply String.eqb_neq in Hbase. rewrite Hbase, Hparent.
  rewrite !bool_decide_eq_false_2 by done. simpl. eauto.
Qed.

(** ** The empty collection *)

(** C2 (as amended): for an empty record collection the builder returns a
    data frame with no rows and no columns, and the file it writes is one
    empty line: no rows and no column names; the renderer, given that
    frame, writes nothing. *)
Theorem empty_collection_export (set_iter : list string -> list string)
    (w w' : World) (df : DataFrame) :
  create_publication_dataframe set_iter {| PubmedArticle := Some [] |} w
  = Done df w' ->
  rows df = [] /\ columns df = []
  /\ files w' !! csv_path w = Some newline
  /\ create_publication_markdown df w' = Done () w'.
Proof.
  intros (l & rs & w1 & Hl & Hrs & -> & Hmk & Hwr)%create_publication_dataframe_Done.
  injection Hl as <-. inversion Hrs; subst. simpl.
  apply write_file_Done in Hwr. rewrite Hwr, lookup_insert_eq. done.
Qed.

Lemma empty_collection_export_witness :
  exists df w',
    create_publication_dataframe py_set {| PubmedArticle := Some [] |} fresh_world
    = Done df w'
    /\ rows df = [] /\ columns df = []
    /\ files w' !! "outputs/202401011200.csv" = Some newline
    /\ create_publication_markdown df w' = Done () w'.
Proof.
  eexists _, _. split; [vm_compute; reflexivity|].
  apply (empty_collection_export py_set fresh_world).
  vm_compute. reflexivity.
Defined.

(** C2, as the claim words it, fails: the file written for an empty
    collection is not the line of the eight column names. *)
Lemma empty_collection_has_no_header :
  exists df w',
    create_publication_dataframe py_set {| PubmedArticle := Some [] |} fresh_world
    = Done df w'
    /\ files w' !! "outputs/202401011200.csv" = Some (to_csv df)
    /\ to_csv df <> csv_line publication_columns
    /\ startswith "PMID" (to_csv df) = false.
Proof.
  eexists _, _. split; [vm_compute; reflexivity|].
  split; [vm_compute; reflexivity|].
  split; [vm_compute; discriminate|vm_compute; reflexivity].
Qed.

(** ** A failing file write *)

(** C3 (as amended): the builder returns the data frame only after the file
    has been written with its text; when the write raises, the exception
    propagates and no data frame is returned. *)
Theorem dataframe_needs_export (set_iter : list string -> list string)
    (records : Records) (w : World) :
  (forall df w',
     create_publication_dataframe set_iter records w = Done df w' ->
     files w' !! csv_path w = Some (to_csv df))
  /\ (forall l df w1 e w2,
        PubmedArticle records = Some l ->
        accumulate set_iter l empty_frame = Ok df ->
        makedirs "outputs" w = Done () w1 ->
        write_file (csv_path w) (to_csv df) w1 = Raised e w2 ->
        create_publication_dataframe set_iter records w = Raised e w2).
Proof.
  split.
  - intros df w' (l & rs & w1 & _ & _ & _ & _ & Hwr)%create_publication_dataframe_Done.
    apply write_file_Done in Hwr. by rewrite Hwr, lookup_insert_eq.
  - intros l df w1 e w2 Hl Hacc Hmk Hwr.
    unfold create_publication_dataframe, mbind, io_bind, lift, strftime.
    rewrite Hl. simpl. rewrite Hacc, Hmk.
    unfold csv_path in Hwr. rewrite (makedirs_clock _ _ _ Hmk), Hwr. done.
Qed.

Lemma dataframe_needs_export_witness :
  create_publication_dataframe py_set
    {| PubmedArticle := Some [citation "1" "On burns" []] |} locked_world
  = Raised (PermissionError "outputs/202401011200.csv") locked_world.
Proof.
  eapply (proj2 (dataframe_needs_export py_set _ locked_world)).
  - reflexivity.
  - vm_compute. reflexivity.
  - vm_compute. reflexivity.
  - vm_compute. reflexivity.
Defined.

(** C3, as the claim words it, fails: the records give a data frame, the
    write is refused, and the caller gets the exception, not the frame. *)
Lemma failed_export_returns_no_dataframe :
  (exists df,
     accumulate py_set [citation "1" "On burns" []] empty_frame = Ok df)
  /\ forall df w',
       create_publication_dataframe py_set
         {| PubmedArticle := Some [citation "1" "On burns" []] |} locked_world
       <> Done df w'.
Proof.
  split.
  - eexists. vm_compute. reflexivity.
  - intros df w'. vm_compute. discriminate.
Qed.

(** ** Titles without a usable character *)

(** The document of a row built by the loop always exists. *)
Lemma markdown_document_cells_of (r : PublicationRow) :
  exists text,
    markdown_document publication_columns (cells_of r)
    = Ok (path_join "outputs" (markdown_filename (row_Title r)), text).
Proof. eexists. reflexivity. Qed.

(** C5 (as amended): a row whose title sanitizes to the empty string gets
    the file name ".md"; its document is written to "outputs/.md" like any
    other, and the renderer raises only if that write is refused. *)
Theorem empty_title_document (r : PublicationRow) (w : World) :
  sanitize (row_Title r) = "" ->
  exists text,
    markdown_document publication_columns (cells_of r) = Ok ("outputs/.md", text)
    /\ render_row publication_columns (cells_of r) w
       = write_file "outputs/.md" text w
    /\ ("outputs" ∈ dirs w -> "outputs/.md" ∉ dirs w ->
        "outputs/.md" ∉ locked w ->
        exists w', render_row publication_columns (cells_of r) w = Done () w'
                   /\ files w' !! "outputs/.md" = Some text).
Proof.
  intros Hsan. destruct (markdown_document_cells_of r) as [text Hdoc].
  unfold markdown_filename in Hdoc. rewrite Hsan in Hdoc.
  change (path_join "outputs" ("" +:+ ".md")) with "outputs/.md" in Hdoc.
  exists text. split; [done|].
  assert (render_row publication_columns (cells_of r) w
          = write_file "outputs/.md" text w) as Hrender.
  { unfold render_row, mbind, io_bind, lift. by rewrite Hdoc. }
  split; [done|]. intros Hout Hdir Hlock. rewrite Hrender.
  destruct (write_file_allowed "outputs/.md" text w) as (w' & Hw & Hfiles);
    try done.
  - unfold dir_exists. apply orb_true_iff. right.
    by apply bool_decide_eq_true_2.
  - exists w'. split; [done|]. by rewrite Hfiles, lookup_insert_eq.
Qed.

Lemma empty_title_document_witness :
  exists text w',
    render_row publication_columns
      (cells_of {| row_PMID := "1"; row_Title := "?!"; row_Abstract := "";
                   row_Authors := ""; row_Journal := "Burns";
                   row_Keywords := ""; row_URL := ""; row_Affiliations := "" |})
      outputs_world = Done () w'
    /\ files w' !! "outputs/.md" = Some text.
Proof.
  destruct (empty_title_document
              {| row_PMID := "1"; row_Title := "?!"; row_Abstract := "";
                 row_Authors := ""; row_Journal := "Burns";
                 row_Keywords := ""; row_URL := ""; row_Affiliations := "" |}
              outputs_world)
    as (text & _ & _ & Hrun).
  - vm_compute. reflexivity.
  - destruct Hrun as (w' & Hw & Hfile).
    + vm_compute. reflexivity.
    + intros H. vm_compute in H. discriminate.
    + intros H. vm_compute in H. discriminate.
    + exists text, w'. split; [exact Hw|exact Hfile].
Defined.

(** C5, as the claim words it, fails: the title "?!" sanitizes to the empty
    string, and the pipeline run on it ends normally with a document
    "outputs/.md". *)
Lemma empty_title_is_rendered :
  sanitize "?!" = ""
  /\ exists w',
       (df ← create_publication_dataframe py_set
               {| PubmedArticle := Some [citation "1" "?!" []] |};
        create_publication_markdown df) fresh_world = Done () w'
       /\ is_Some (files w' !! "outputs/.md").
Proof.
  split; [vm_compute; reflexivity|].
  eexists. split; [vm_compute; reflexivity|].
  vm_compute. eexists. reflexivity.
Qed.

(** * Further properties *)

(** ** Characters and strings *)

Lemma append_cons (c : ascii) (s t : string) :
  String c s +:+ t = String c (s +:+ t).
Proof. reflexivity. Qed.

Lemma append_nil_l (t : string) : "" +:+ t = t.
Proof. reflexivity. Qed.

Lemma append_nil_r (s : string) : s +:+ "" = s.
Proof. induction s as [|c s IH]; [done|]. by rewrite append_cons, IH. Qed.

Lemma append_assoc (s t u : string) : (s +:+ t) +:+ u = s +:+ (t +:+ u).
Proof. induction s as [|c s IH]; [done|]. by rewrite !append_cons, IH. Qed.

Lemma any_char_app (p : ascii -> bool) (s t : string) :
  any_char p (s +:+ t) = any_char p s || any_char p t.
Proof.
  induction s as [|c s IH]; [done|].
  rewrite append_cons. simpl. rewrite IH. by rewrite orb_assoc.
Qed.

Lemma filter_string_none (p keep : ascii -> bool) (s : string) :
  (forall c, p c = true -> keep c = false) ->
  any_char p (filter_string keep s) = false.
Proof.
  intros Hp. induction s as [|c s IH]; simpl; [done|].
  destruct (keep c) eqn:Hc; simpl; [|done].
  rewrite IH. destruct (p c) eqn:Hpc; [|done].
  apply Hp in Hpc. congruence.
Qed.

Lemma slash_not_kept (c : ascii) :
  is_slash c = true -> is_alnum c || is_space c = false.
Proof.
  unfold is_slash, code. intros H%Nat.eqb_eq.
  rewrite <- (ascii_nat_embedding c), H. reflexivity.
Qed.

Lemma sanitize_no_slash (s : string) : any_char is_slash (sanitize s) = false.
Proof. apply filter_string_none, slash_not_kept. Qed.

Lemma starts_with_slash_any (s : string) :
  any_char is_slash s = false -> starts_with_slash s = false.
Proof.
  destruct s as [|c s]; simpl; [done|].
  unfold is_slash. by intros [? _]%orb_false_iff.
Qed.

Lemma split_last_slash_none (s : string) :
  any_char is_slash s = false -> split_last_slash s = None.
Proof.
  induction s as [|c s IH]; simpl; [done|].
  intros [Hc Hs]%orb_false_iff. rewrite (IH Hs).
  unfold is_slash in Hc. by rewrite Hc.
Qed.

Lemma split_last_slash_app (d b : string) :
  any_char is_slash b = false ->
  split_last_slash (d +:+ "/" +:+ b) = Some (d, b).
Proof.
  intros Hb. induction d as [|c d IH].
  - rewrite append_nil_l, append_cons, append_nil_l. simpl.
    by rewrite (split_last_slash_none b Hb).
  - rewrite append_cons. simpl. by rewrite IH.
Qed.

Lemma last_char_app (s t : string) :
  t <> "" -> last_char (s +:+ t) = last_char t.
Proof.
  intros Ht. induction s as [|c s IH]; [done|].
  rewrite append_cons. simpl. rewrite IH. destruct t as [|d t]; [done|]. simpl.
  by destruct (last_char t).
Qed.

(** X1: a sanitized string holds letters, digits and white space only, and
    a string that holds nothing else is left as it is: the strings the
    substitution leaves alone are exactly the safe ones. *)
Theorem sanitize_keeps_safe_characters (s : string) :
  any_char (fun c => negb (is_alnum c || is_space c)) (sanitize s) = false
  /\ (sanitize s = s <->
      any_char (fun c => negb (is_alnum c || is_space c)) s = false).
Proof.
  split; [apply filter_string_keeps|]. split.
  - intros <-. apply filter_string_keeps.
  - unfold sanitize. induction s as [|c s IH]; simpl; [done|].
    intros [Hc Hs]%orb_false_iff. apply negb_false_iff in Hc.
    rewrite Hc. f_equal. by apply IH.
Qed.

(** ** Paths of the output directory *)

Lemma path_join_outputs (b : string) :
  starts_with_slash b = false -> path_join "outputs" b = "outputs/" +:+ b.
Proof. unfold path_join. intros ->. reflexivity. Qed.

Lemma markdown_filename_no_slash (title : string) :
  any_char is_slash (markdown_filename title) = false.
Proof.
  unfold markdown_filename. rewrite any_char_app, sanitize_no_slash. reflexivity.
Qed.

Lemma document_path_eq (title : string) :
  document_path title = "outputs/" +:+ sanitize title +:+ ".md".
Proof.
  unfold document_path. rewrite path_join_outputs; [done|].
  apply starts_with_slash_any, markdown_filename_no_slash.
Qed.

Lemma document_path_split (title : string) :
  split_last_slash (document_path title)
  = Some ("outputs", markdown_filename title).
Proof.
  rewrite document_path_eq.
  apply (split_last_slash_app "outputs" (sanitize title +:+ ".md")).
  apply markdown_filename_no_slash.
Qed.


Lemma document_path_last (title : string) :
  last_char (document_path title) = Some "d"%char.
Proof.
  rewrite document_path_eq.
  change ("outputs/" +:+ sanitize title +:+ ".md")
    with ("outputs/" +:+ (sanitize title +:+ ".md")).
  rewrite <- append_assoc. by rewrite last_char_app.
Qed.

Lemma document_path_parts (title : string) :
  document_path title = "outputs/" +:+ sanitize title +:+ ".md"
  /\ dirname (document_path title) = "outputs"
  /\ basename (document_path title) = markdown_filename title
  /\ any_char is_slash (basename (document_path title)) = false.
Proof.
  split; [apply document_path_eq|].
  unfold dirname, basename. rewrite document_path_split.
  repeat split. apply markdown_filename_no_slash.
Qed.

(** ** More on the date extractor *)

(** X2: the sentinel is returned exactly when 'Year' is absent: a formatted
    date always holds a hyphen, the sentinel none, so no value of 'Year' can
    make the two coincide. *)
Theorem sentinel_iff_no_year (pubdate : gmap string string) :
  parse_date_from_pubdate pubdate = "No date found" <-> "Year" ∉ dom pubdate.
Proof.
  rewrite not_elem_of_dom. unfold parse_date_from_pubdate.
  destruct (pubdate !! "Year") as [year|]; [|done].
  split; [|done]. intros H. exfalso.
  assert (any_char (fun c => (code c =? 45)%nat) "No date found" = true) as Hh.
  { rewrite <- H. rewrite !any_char_app. simpl.
    by rewrite orb_true_r. }
  vm_compute in Hh. discriminate.
Qed.

(** ** More on one record *)

Section RowMore.

Variable set_iter : list string -> list string.

Lemma collect_affiliations_Err_key (l : list AuthorT) (acc : list string) (e : exn) :
  collect_affiliations l acc = Err e -> e = KeyError "Affiliation".
Proof.
  revert acc. induction l as [|a l IH]; intros acc; simpl; [discriminate|].
  destruct (AffiliationInfo a) as [[|info infos]|]; [apply IH| |apply IH].
  destruct (Affiliation info) as [aff|]; simpl; [apply IH|].
  by intros [= <-].
Qed.

Lemma collect_affiliations_incomplete (l : list AuthorT) (acc : list string) :
  Exists (fun a => ~ affiliation_complete a) l ->
  collect_affiliations l acc = Err (KeyError "Affiliation").
Proof.
  intros Hex.
  destruct (collect_affiliations l acc) as [affs|e] eqn:Hc.
  - exfalso. revert acc Hc.
    induction Hex as [a l Ha|a l _ IH]; intros acc; simpl;
      unfold affiliation_complete in *.
    + destruct (AffiliationInfo a) as [[|info infos]|]; [by destruct Ha| |by destruct Ha].
      destruct (Affiliation info) as [aff|]; simpl; [|discriminate].
      destruct Ha. by eexists.
    + destruct (AffiliationInfo a) as [[|info infos]|]; [apply IH| |apply IH].
      destruct (Affiliation info) as [aff|]; simpl; [apply IH|discriminate].
  - by rewrite (collect_affiliations_Err_key _ _ _ Hc).
Qed.

Lemma for_each_descriptor (hs : list MeshHeadingT) :
  match for_each (fun keyword => item "DescriptorName" (DescriptorName keyword)) hs with
  | Ok names => Forall2 (fun h n => DescriptorName h = Some n) hs names
  | Err e => e = KeyError "DescriptorName"
               /\ Exists (fun h => DescriptorName h = None) hs
  end.
Proof.
  induction hs as [|h hs IH]; simpl; [constructor|].
  destruct (DescriptorName h) as [n|] eqn:Hn; simpl.
  - destruct (for_each _ hs) as [names|e]; simpl.
    + by constructor.
    + destruct IH as [-> Hex]. split; [done|]. by right.
  - split; [done|]. by left.
Qed.

(** The abstract and the keywords of a computed row. *)
Lemma publication_row_optional (record : RawRecord) (r : PublicationRow)
    (mc : MedlineCitationT) (art : ArticleT) :
  publication_row set_iter record = Ok r ->
  MedlineCitation record = Some mc -> Article mc = Some art ->
  row_Abstract r
  = match Abstract art with
    | Some abs =>
        match AbstractText abs with Some text => join " " text | None => "" end
    | None => ""
    end
  /\ match MeshHeadingList mc with
     | Some hs =>
         exists names,
           Forall2 (fun h n => DescriptorName h = Some n) hs names
           /\ row_Keywords r = join ", " names
     | None => row_Keywords r = ""
     end.
Proof.
  unfold publication_row, article, medline. intros H Hmc Hart.
  rewrite Hmc in H. simpl in H.
  destruct (PMID mc) as [pmid|]; simpl in H; [|discriminate].
  rewrite Hart in H. simpl in H.
  destruct (ArticleTitle art) as [title|]; simpl in H; [|discriminate].
  inv_bind. subst r. simpl. split.
  - destruct (Abstract art) as [[[text|]]|]; simpl in *; congruence.
  - destruct (MeshHeadingList mc) as [hs|]; [|simpl in *; congruence].
    pose proof (for_each_descriptor hs) as Hhs.
    destruct (for_each _ hs) as [names|e]; simpl in *; [|discriminate].
    exists names. split; [done|]. congruence.
Qed.

End RowMore.

(** X3: with a subject-heading list, Keywords is the comma-space join of the
    descriptor names of the headings, in the order of the list. *)
Theorem keywords_joined (set_iter : list string -> list string)
    (record : RawRecord) (r : PublicationRow) (mc : MedlineCitationT)
    (hs : list MeshHeadingT) :
  publication_row set_iter record = Ok r ->
  MedlineCitation record = Some mc -> MeshHeadingList mc = Some hs ->
  exists names,
    Forall2 (fun h n => DescriptorName h = Some n) hs names
    /\ row_Keywords r = join ", " names.
Proof.
  intros Hr Hmc Hhs.
  destruct (publication_row_Ok set_iter record r Hr)
    as (mc' & art & _ & _ & _ & Hmc' & Hart & _).
  rewrite Hmc in Hmc'. injection Hmc' as <-.
  destruct (publication_row_optional set_iter record r mc art Hr Hmc Hart)
    as [_ Hkw].
  by rewrite Hhs in Hkw.
Qed.

(** X4: with an abstract that has its text list, Abstract is the pieces of
    the text joined by single spaces; an abstract without the text list
    gives the empty string. *)
Theorem abstract_joined (set_iter : list string -> list string)
    (record : RawRecord) (r : PublicationRow) (mc : MedlineCitationT)
    (art : ArticleT) (abs : AbstractT) :
  publication_row set_iter record = Ok r ->
  MedlineCitation record = Some mc -> Article mc = Some art ->
  Abstract art = Some abs ->
  (forall text, AbstractText abs = Some text -> row_Abstract r = join " " text)
  /\ (AbstractText abs = None -> row_Abstract r = "").
Proof.
  intros Hr Hmc Hart Habs.
  destruct (publication_row_optional set_iter record r mc art Hr Hmc Hart)
    as [Hab _].
  rewrite Habs in Hab. split.
  - intros text Ht. by rewrite Ht in Hab.
  - intros Ht. by rewrite Ht in Hab.
Qed.

(** X5: the only exception the loop body raises is a [KeyError], and the key
    it names is one of MedlineCitation, PMID, Article, ArticleTitle,
    AuthorList, Affiliation, Journal, Title and DescriptorName; the keys
    Abstract, AbstractText, LastName, ForeName, AffiliationInfo and
    MeshHeadingList never raise. *)
Theorem row_errors_name_required_keys (set_iter : list string -> list string)
    (record : RawRecord) (e : exn) :
  publication_row set_iter record = Err e ->
  exists k, e = KeyError k
    /\ k ∈ ["MedlineCitation"; "PMID"; "Article"; "ArticleTitle"; "AuthorList";
            "Affiliation"; "Journal"; "Title"; "DescriptorName"].
Proof.
  unfold publication_row, article, medline.
  destruct (MedlineCitation record) as [mc|]; simpl;
    [|intros [= <-]; eexists; split; [done|solve [repeat first [left | right]]]].
  destruct (PMID mc); simpl; [|intros [= <-]; eexists; split; [done|solve [repeat first [left | right]]]].
  destruct (Article mc) as [art|]; simpl;
    [|intros [= <-]; eexists; split; [done|solve [repeat first [left | right]]]].
  destruct (ArticleTitle art); simpl;
    [|intros [= <-]; eexists; split; [done|solve [repeat first [left | right]]]].
  destruct (Abstract art) as [[[text|]]|]; simpl.
  all: destruct (AuthorList art) as [l|]; simpl;
    [|intros [= <-]; eexists; split; [done|solve [repeat first [left | right]]]].
  all: destruct (collect_affiliations l []) eqn:Hc; simpl;
    [|intros [= <-]; apply collect_affiliations_Err_key in Hc as ->;
      eexists; split; [done|solve [repeat first [left | right]]]].
  all: destruct (Journal art) as [[[jt|]]|]; simpl;
    try (intros [= <-]; eexists; split; [done|solve [repeat first [left | right]]]).
  all: destruct (MeshHeadingList mc) as [hs|]; simpl; try discriminate.
  all: pose proof (for_each_descriptor hs) as Hhs.
  all: destruct (for_each _ hs); simpl; try discriminate.
  all: intros [= <-]; destruct Hhs as [-> _]; eexists; split; [done|solve [repeat first [left | right]]].
Qed.

(** X6: the affiliation entry is guarded only for presence: if some author
    has a non-empty 'AffiliationInfo' whose first entry lacks 'Affiliation',
    the row raises [KeyError 'Affiliation'], although PMID, title and author
    list are all there. *)
Theorem incomplete_affiliation_raises (set_iter : list string -> list string)
    (record : RawRecord) (mc : MedlineCitationT) (art : ArticleT)
    (l : list AuthorT) :
  MedlineCitation record = Some mc -> Article mc = Some art ->
  is_Some (PMID mc) -> is_Some (ArticleTitle art) ->
  AuthorList art = Some l ->
  Exists (fun a => ~ affiliation_complete a) l ->
  publication_row set_iter record = Err (KeyError "Affiliation").
Proof.
  intros Hmc Hart [pmid Hp] [title Ht] Hl Hex.
  unfold publication_row, article, medline.
  rewrite Hmc. simpl. rewrite Hp, Hart. simpl. rewrite Ht. simpl.
  rewrite Hl. simpl. rewrite (collect_affiliations_incomplete l [] Hex).
  by destruct (Abstract art) as [[[text|]]|].
Qed.

(** X7: likewise a heading without 'DescriptorName' in a record that is
    otherwise complete makes the row raise [KeyError 'DescriptorName']. *)
Theorem incomplete_heading_raises (set_iter : list string -> list string)
    (record : RawRecord) (mc : MedlineCitationT) (art : ArticleT)
    (l : list AuthorT) (j : JournalT) (hs : list MeshHeadingT) :
  MedlineCitation record = Some mc -> Article mc = Some art ->
  is_Some (PMID mc) -> is_Some (ArticleTitle art) ->
  AuthorList art = Some l -> Forall affiliation_complete l ->
  Journal art = Some j -> is_Some (Title j) ->
  MeshHeadingList mc = Some hs ->
  Exists (fun h => DescriptorName h = None) hs ->
  publication_row set_iter record = Err (KeyError "DescriptorName").
Proof.
  intros Hmc Hart [pmid Hp] [title Ht] Hl Haff Hj [jt Hjt] Hhs Hex.
  unfold publication_row, article, medline.
  rewrite Hmc. simpl. rewrite Hp, Hart. simpl. rewrite Ht. simpl.
  rewrite Hl. simpl.
  destruct (collect_affiliations_total l [] Haff) as [affs ->]. simpl.
  rewrite Hj. simpl. rewrite Hjt, Hhs. simpl.
  pose proof (for_each_descriptor hs) as Hfe.
  destruct (for_each _ hs) as [names|e]; simpl.
  - exfalso. clear -Hfe Hex.
    induction Hfe as [|h n hs names Hh _ IH]; inversion Hex; subst; [congruence|auto].
  - destruct Hfe as [-> _]. by destruct (Abstract art) as [[[text|]]|].
Qed.

(** ** Effects of the file operations *)

Lemma makedirs_Done (d : string) (w w1 : World) :
  makedirs d w = Done () w1 ->
  files w1 = files w /\ locked w1 = locked w /\ clock w1 = clock w
  /\ (d = "" /\ w1 = w \/ dirs w1 = {[d]} ∪ dirs w).
Proof.
  unfold makedirs, dir_exists.
  destruct (String.eqb d "") eqn:Hd; cbn [orb].
  { intros [= <-]. apply String.eqb_eq in Hd.
    split; [done|]. split; [done|]. split; [done|]. by left. }
  case_bool_decide as Hin.
  { intros [= <-].
    split; [done|]. split; [done|]. split; [done|]. right.
    apply set_eq. intros x. rewrite elem_of_union, elem_of_singleton.
    split; [by right|]. intros [->|?]; done. }
  case_bool_decide; [discriminate|].
  case_bool_decide; [discriminate|].
  intros [= <-]. simpl.
  split; [done|]. split; [done|]. split; [done|]. by right.
Qed.

Lemma makedirs_Raised (d : string) (w w1 : World) (e : exn) :
  makedirs d w = Raised e w1 -> w1 = w /\ ~ is_key_error e.
Proof.
  unfold makedirs. intros H.
  destruct (dir_exists w d); [discriminate|].
  destruct (bool_decide _); [injection H as <- <-; split; [done|]; by intros [k ?]|].
  destruct (bool_decide _); [injection H as <- <-; split; [done|]; by intros [k ?]|].
  discriminate.
Qed.

Lemma write_file_Done_world (path text : string) (w w' : World) :
  write_file path text w = Done () w' ->
  w' = {| dirs := dirs w; files := <[path := text]> (files w);
          locked := locked w; clock := clock w |}.
Proof.
  unfold write_file. intros H.
  destruct (_ || _); [discriminate|].
  destruct (negb _); [discriminate|].
  destruct (bool_decide _); [discriminate|].
  by injection H as <-.
Qed.

Lemma write_file_Raised (path text : string) (w w' : World) (e : exn) :
  write_file path text w = Raised e w' -> w' = w /\ ~ is_key_error e.
Proof.
  unfold write_file. intros H.
  destruct (_ || _); [injection H as <- <-; split; [done|]; by intros [k ?]|].
  destruct (negb _); [injection H as <- <-; split; [done|]; by intros [k ?]|].
  destruct (bool_decide _); [injection H as <- <-; split; [done|]; by intros [k ?]|].
  discriminate.
Qed.

(** The CSV path for a clock without a slash. *)
Lemma csv_path_eq (w : World) :
  any_char is_slash (clock w) = false ->
  csv_path w = "outputs/" +:+ clock w +:+ ".csv"
  /\ split_last_slash (csv_path w) = Some ("outputs", clock w +:+ ".csv").
Proof.
  intros Hc.
  assert (any_char is_slash (clock w +:+ ".csv") = false) as Hn
    by (rewrite any_char_app, Hc; reflexivity).
  unfold csv_path. rewrite path_join_outputs by by apply starts_with_slash_any.
  split; [done|]. by apply (split_last_slash_app "outputs").
Qed.

Lemma csv_path_last (w : World) : last_char (csv_path w) = Some "v"%char.
Proof.
  unfold csv_path, path_join.
  destruct (starts_with_slash _); [by rewrite last_char_app|].
  simpl. change ("outputs" +:+ "/" +:+ clock w +:+ ".csv")
    with ("outputs/" +:+ (clock w +:+ ".csv")).
  rewrite <- append_assoc. by rewrite last_char_app.
Qed.

Lemma csv_path_not_document (w : World) (title : string) :
  document_path title <> csv_path w.
Proof.
  intros H. pose proof (document_path_last title) as Hd.
  rewrite H, csv_path_last in Hd. discriminate.
Qed.

(** ** More on the dataset builder *)

Section BuilderMore.

Variable set_iter : list string -> list string.

(** Every way the builder can end. *)
Lemma create_publication_dataframe_cases (records : Records) (w : World) :
  (exists e, create_publication_dataframe set_iter records w = Raised e w
             /\ is_key_error e)
  \/ (exists rs, create_publication_dataframe set_iter records w
                 = (_ ← makedirs "outputs";
                    _ ← write_file (csv_path w) (to_csv (frame_of rs));
                    mret (frame_of rs)) w
        /\ exists l, PubmedArticle records = Some l
             /\ Forall2 (fun record r => publication_row set_iter record = Ok r) l rs).
Proof.
  unfold create_publication_dataframe, csv_path.
  unfold mbind at 1. unfold io_bind at 1. unfold lift.
  destruct (PubmedArticle records) as [l|]; simpl;
    [|left; eexists; split; [done|by eexists]].
  change empty_frame with (frame_of []). rewrite accumulate_frame_of.
  destruct (for_each _ l) as [rs|e] eqn:Hrs; simpl.
  - right. exists rs. split.
    + unfold mbind, io_bind, strftime, mret, io_ret.
      destruct (makedirs "outputs" w) as [[] w1|e w1] eqn:Hmk; [|done].
      by rewrite (makedirs_clock _ _ _ Hmk).
    + exists l. split; [done|]. by apply for_each_Ok.
  - left. exists e. split; [done|].
    assert (exists record, publication_row set_iter record = Err e) as [record Hr].
    { clear -Hrs. induction l as [|x l IH]; simpl in Hrs; [discriminate|].
      destruct (publication_row set_iter x) eqn:Hx; simpl in Hrs.
      - destruct (for_each _ l); simpl in Hrs; [discriminate|].
        injection Hrs as <-. by apply IH.
      - injection Hrs as <-. eauto. }
    by eapply publication_row_Err.
Qed.

End BuilderMore.

Lemma dataframe_shape_aux (set_iter : list string -> list string)
    (records : Records) (w w' : World) (df : DataFrame) :
  create_publication_dataframe set_iter records w = Done df w' ->
  (PubmedArticle records <> Some [] -> columns df = publication_columns)
  /\ files w' !! csv_path w = Some (to_csv df).
Proof.
  intros (l & rs & w1 & Hl & Hrs & -> & _ & Hwr)%create_publication_dataframe_Done.
  split.
  - rewrite Hl. destruct Hrs; [done|]. done.
  - apply write_file_Done in Hwr. by rewrite Hwr, lookup_insert_eq.
Qed.

(** X8: a returned data frame has no columns and no rows exactly when the
    collection is empty; otherwise its columns are the eight publication
    columns in their order, and every row has eight cells, none of them
    NaN. *)
Theorem dataframe_shape (set_iter : list string -> list string)
    (records : Records) (w w' : World) (df : DataFrame) :
  create_publication_dataframe set_iter records w = Done df w' ->
  (PubmedArticle records = Some [] /\ columns df = [] /\ rows df = [])
  \/ (PubmedArticle records <> Some []
      /\ columns df = publication_columns
      /\ Forall (fun row => length row = 8 /\ Forall is_Some row) (rows df)).
Proof.
  intros (l & rs & w1 & Hl & Hrs & -> & _)%create_publication_dataframe_Done.
  destruct Hrs as [|record r l rs Hr Hrs]; [by left|right].
  rewrite Hl. split; [done|]. split; [done|].
  rewrite rows_frame_of. apply Forall_fmap, Forall_forall.
  intros x _. split; [done|]. unfold cells_of. repeat constructor; by eexists.
Qed.

(** X9: in every row of a returned data frame the URL cell is
    "https://www.ncbi.nlm.nih.gov/pubmed/" followed by the PMID cell of the
    same row. *)
Theorem url_follows_pmid (set_iter : list string -> list string)
    (records : Records) (w w' : World) (df : DataFrame) (row : list cell) :
  create_publication_dataframe set_iter records w = Done df w' ->
  row ∈ rows df ->
  exists pmid,
    series_item (columns df) row "PMID" = Ok (Some pmid)
    /\ series_item (columns df) row "URL"
       = Ok (Some ("https://www.ncbi.nlm.nih.gov/pubmed/" +:+ pmid)).
Proof.
  intros (l & rs & w1 & Hl & Hrs & -> & _)%create_publication_dataframe_Done.
  rewrite rows_frame_of. intros (r & -> & Hr)%list_elem_of_fmap.
  destruct rs as [|r0 rs]; [by apply elem_of_nil in Hr|].
  apply list_elem_of_lookup in Hr as [i Hi].
  destruct (Forall2_lookup_r _ _ _ _ _ Hrs Hi) as (record & _ & Hrow).
  apply publication_row_Ok in Hrow
    as (_ & _ & _ & _ & _ & _ & _ & _ & _ & _ & _ & _ & _ & _ & _ & _ & _ & Hurl).
  exists (row_PMID r). split; [reflexivity|].
  unfold series_item. simpl. by rewrite Hurl.
Qed.

(** X10: a returned builder has changed one file and nothing else: the CSV
    file of the minute now holds the text of the frame, the output directory
    exists, and every other file, the locks and the clock are as before. *)
Theorem export_touches_one_file (set_iter : list string -> list string)
    (records : Records) (w w' : World) (df : DataFrame) :
  create_publication_dataframe set_iter records w = Done df w' ->
  files w' = <[csv_path w := to_csv df]> (files w)
  /\ dirs w' = {["outputs"]} ∪ dirs w
  /\ locked w' = locked w /\ clock w' = clock w.
Proof.
  intros (l & rs & w1 & _ & _ & -> & Hmk & Hwr)%create_publication_dataframe_Done.
  apply write_file_Done_world in Hwr as ->. simpl.
  apply makedirs_Done in Hmk as (-> & -> & -> & [[? _]| ->]); done.
Qed.

(** X11: a raising builder never leaves a CSV file behind: the files are as
    they were; and when the exception is a [KeyError] (a missing key in the
    records) the whole world is as it was, the output directory not even
    created. *)
Theorem failed_export_writes_nothing (set_iter : list string -> list string)
    (records : Records) (w w' : World) (e : exn) :
  create_publication_dataframe set_iter records w = Raised e w' ->
  files w' = files w /\ locked w' = locked w /\ clock w' = clock w
  /\ (is_key_error e -> w' = w).
Proof.
  destruct (create_publication_dataframe_cases set_iter records w)
    as [(e' & -> & He')|(rs & -> & _)].
  - intros [= <- <-]. done.
  - unfold mbind, io_bind, mret, io_ret.
    destruct (makedirs "outputs" w) as [[] w1|e1 w1] eqn:Hmk.
    + destruct (write_file _ _ w1) as [[] w2|e2 w2] eqn:Hwr; [discriminate|].
      intros [= <- <-]. apply write_file_Raised in Hwr as [-> Hk].
      apply makedirs_Done in Hmk as (-> & -> & -> & _). done.
    + intros [= <- <-]. apply makedirs_Raised in Hmk as [-> Hk]. done.
Qed.

(** X12: for a collection with at least one record, the CSV file starts with
    the header line naming the eight columns, followed by one CSV line per
    row of the frame. *)
Theorem export_has_header (set_iter : list string -> list string)
    (records : Records) (w w' : World) (df : DataFrame) :
  create_publication_dataframe set_iter records w = Done df w' ->
  PubmedArticle records <> Some [] ->
  files w' !! csv_path w
  = Some ("PMID,Title,Abstract,Authors,Journal,Keywords,URL,Affiliations"
          +:+ newline
          +:+ join "" (map (fun row => csv_line (map na_rep row)) (rows df))).
Proof.
  intros Hrun Hne.
  destruct (dataframe_shape_aux set_iter records w w' df Hrun) as [Hcols Hfile].
  rewrite Hfile. unfold to_csv. rewrite (Hcols Hne). reflexivity.
Qed.

Lemma csv_path_not_outputs (w : World) : csv_path w <> "outputs".
Proof.
  intros H. pose proof (csv_path_last w) as Hl. rewrite H in Hl. discriminate.
Qed.

Lemma builder_returns (set_iter : list string -> list string)
    (records : Records) (l : list RawRecord) (w : World) :
  PubmedArticle records = Some l ->
  Forall (fun record => exists r, publication_row set_iter record = Ok r) l ->
  any_char is_slash (clock w) = false ->
  ("outputs" ∈ dirs w
   \/ ("outputs" ∉ dom (files w)) /\ ("outputs" ∉ locked w)) ->
  csv_path w ∉ dirs w -> csv_path w ∉ locked w ->
  exists df w', create_publication_dataframe set_iter records w = Done df w'.
Proof.
  intros Hl Hrows Hclock Hout Hdir Hlock.
  assert (exists rs, for_each (publication_row set_iter) l = Ok rs) as [rs Hrs].
  { clear -Hrows. induction Hrows as [|x l [r Hr] _ [rs IH]]; simpl; [eauto|].
    rewrite Hr, IH. simpl. eauto. }
  assert (exists w1, makedirs "outputs" w = Done () w1
            /\ dirs w1 = {["outputs"]} ∪ dirs w /\ locked w1 = locked w)
    as (w1 & Hmk & Hd1 & Hl1).
  { destruct (makedirs "outputs" w) as [[] w1|e w1] eqn:Hmk.
    - exists w1. split; [done|].
      apply makedirs_Done in Hmk as (_ & -> & _ & [[? _]|?]); done.
    - exfalso. revert Hmk. unfold makedirs, dir_exists. simpl.
      destruct Hout as [Hin|[Hf Hk]].
      + by rewrite bool_decide_eq_true_2.
      + case_bool_decide; [done|].
        rewrite !bool_decide_eq_false_2 by done. done. }
  destruct (csv_path_eq w Hclock) as [_ Hsplit].
  destruct (write_file_allowed (csv_path w) (to_csv (frame_of rs)) w1)
    as (w2 & Hwr & _).
  - unfold basename. rewrite Hsplit. intros H.
    assert (last_char (clock w +:+ ".csv") = Some "v"%char) as Hv
      by (by rewrite last_char_app).
    by rewrite H in Hv.
  - rewrite Hd1. intros [Hs|?]%elem_of_union; [|done].
    apply elem_of_singleton in Hs. by apply csv_path_not_outputs in Hs.
  - unfold dirname, dir_exists. rewrite Hsplit. simpl.
    apply bool_decide_eq_true_2. rewrite Hd1. apply elem_of_union_l.
    by apply elem_of_singleton.
  - by rewrite Hl1.
  - exists (frame_of rs), w2.
    unfold create_publication_dataframe, mbind, io_bind, lift, strftime,
      mret, io_ret.
    rewrite Hl. simpl. change empty_frame with (frame_of []).
    rewrite accumulate_frame_of, Hrs. simpl. rewrite Hmk.
    rewrite (makedirs_clock _ _ _ Hmk). fold (csv_path w). by rewrite Hwr.
Qed.

(** X13: the builder returns whenever every record has its row, the clock
    text has no slash, the output directory exists or can be created, and the
    CSV path is neither a directory nor locked; an existing output directory
    is no error. *)
Theorem export_succeeds (set_iter : list string -> list string)
    (records : Records) (l : list RawRecord) (w : World) :
  PubmedArticle records = Some l ->
  Forall (fun record => exists r, publication_row set_iter record = Ok r) l ->
  any_char is_slash (clock w) = false ->
  ("outputs" ∈ dirs w
   \/ ("outputs" ∉ dom (files w)) /\ ("outputs" ∉ locked w)) ->
  csv_path w ∉ dirs w -> csv_path w ∉ locked w ->
  exists df w', create_publication_dataframe set_iter records w = Done df w'.
Proof. apply builder_returns. Qed.

(** X14: two exports within the same minute share one path, and the second
    replaces the first: after both, the file holds the text of the second
    frame only, and the files are those of the start plus that one. *)
Theorem same_minute_overwrites (set_iter : list string -> list string)
    (records1 records2 : Records) (w w1 w2 : World) (df1 df2 : DataFrame) :
  create_publication_dataframe set_iter records1 w = Done df1 w1 ->
  create_publication_dataframe set_iter records2 w1 = Done df2 w2 ->
  csv_path w1 = csv_path w
  /\ files w2 = <[csv_path w := to_csv df2]> (files w).
Proof.
  intros H1 H2.
  assert (files w1 = <[csv_path w := to_csv df1]> (files w) /\ clock w1 = clock w)
    as [Hf1 Hc1].
  { apply create_publication_dataframe_Done in H1
      as (l & rs & w0 & _ & _ & -> & Hmk & Hwr).
    apply write_file_Done_world in Hwr as ->. simpl.
    apply makedirs_Done in Hmk as (-> & _ & -> & _). done. }
  assert (csv_path w1 = csv_path w) as Hp by (unfold csv_path; by rewrite Hc1).
  split; [done|].
  apply create_publication_dataframe_Done in H2
    as (l & rs & w0 & _ & _ & -> & Hmk & Hwr).
  apply write_file_Done_world in Hwr as ->. simpl.
  apply makedirs_Done in Hmk as (-> & _ & _ & _).
  by rewrite Hp, Hf1, insert_insert_eq.
Qed.

(** ** More on the document renderer *)

Lemma series_item_Ok (cols : list string) (row : list cell) (c : string) (x : cell) :
  series_item cols row c = Ok x ->
  has_column c cols = true /\ x = cell_at cols row c.
Proof.
  unfold series_item. destruct (has_column c cols); [|discriminate].
  by intros [= <-].
Qed.

(** The document of any row of any frame, when there is one. *)
Lemma markdown_document_Ok (cols : list string) (row : list cell)
    (p text : string) :
  markdown_document cols row = Ok (p, text) ->
  exists title,
    series_item cols row "Title" = Ok (Some title)
    /\ p = document_path title
    /\ Forall (fun c => has_column c cols = true) publication_columns.
Proof.
  unfold markdown_document. intros H.
  apply bind_Ok in H as (title & Ht & H).
  apply bind_Ok in H as (filename & Hf & H).
  apply bind_Ok in Hf as (t & Hs & Hf).
  destruct title as [title|]; [|discriminate]. injection Hs as <-.
  injection Hf as <-.
  apply bind_Ok in H as (t2 & Ht2 & H).
  apply bind_Ok in H as (pmid & Hpmid & H).
  apply bind_Ok in H as (journal & Hjournal & H).
  apply bind_Ok in H as (authors & Hauthors & H).
  apply bind_Ok in Hauthors as (a & Ha & _).
  apply bind_Ok in H as (abstract_text & Habstract & H).
  apply bind_Ok in H as (keywords & Hkeywords & H).
  apply bind_Ok in H as (url & Hurl & H).
  apply bind_Ok in H as (affiliations & Haffiliations & H).
  injection H as <- _.
  exists title. split; [done|]. split; [done|].
  repeat match goal with
    | H : series_item _ _ _ = Ok _ |- _ => apply series_item_Ok in H as [H _]
    end.
  unfold publication_columns. repeat constructor; done.
Qed.


(** What one pass of the loop does to the world. *)
Lemma render_row_world (cols : list string) (row : list cell) (w : World) :
  let w' := world_after (render_row cols row w) in
  w' = w
  \/ exists title text,
       markdown_document cols row = Ok (document_path title, text)
       /\ render_row cols row w = Done () w'
       /\ w' = {| dirs := dirs w;
                  files := <[document_path title := text]> (files w);
                  locked := locked w; clock := clock w |}.
Proof.
  unfold render_row, mbind, io_bind, lift.
  destruct (markdown_document cols row) as [[p text]|e] eqn:Hdoc; [|by left].
  destruct (markdown_document_Ok _ _ _ _ Hdoc) as (title & _ & -> & _).
  simpl. destruct (write_file _ text w) as [[] w1|e w1] eqn:Hwr; simpl.
  - right. exists title, text. split; [done|]. split; [done|].
    by apply write_file_Done_world.
  - left. by apply write_file_Raised in Hwr as [-> _].
Qed.

Lemma render_rows_app (cols : list string) (rs1 rs2 : list (list cell)) (w : World) :
  render_rows cols (rs1 ++ rs2) w
  = match render_rows cols rs1 w with
    | Done _ w1 => render_rows cols rs2 w1
    | Raised e w1 => Raised e w1
    end.
Proof.
  revert w. induction rs1 as [|row rs1 IH]; intros w; simpl; [done|].
  unfold mbind, io_bind.
  destruct (render_row cols row w) as [[] w1|e w1]; [apply IH|done].
Qed.

(** The renderer keeps directories, locks and clock, keeps every file it
    had, and changes files at document paths only. *)
Lemma render_rows_world (cols : list string) (rs : list (list cell)) (w : World) :
  let w' := world_after (render_rows cols rs w) in
  dirs w' = dirs w /\ locked w' = locked w /\ clock w' = clock w
  /\ (forall p, is_Some (files w !! p) -> is_Some (files w' !! p))
  /\ (forall p, (forall title, p <> document_path title) ->
        files w' !! p = files w !! p).
Proof.
  revert w. induction rs as [|row rs IH]; intros w; simpl; [done|].
  unfold mbind, io_bind.
  pose proof (render_row_world cols row w) as Hrow. simpl in Hrow.
  destruct (render_row cols row w) as [[] w1|e w1] eqn:Hr; simpl in *.
  - specialize (IH w1). simpl in IH.
    destruct IH as (Hd & Hl & Hc & Hkeep & Hother).
    destruct Hrow as [->|(title & text & _ & _ & ->)]; [done|]. simpl in *.
    split; [done|]. split; [done|]. split; [done|]. split.
    + intros p Hp. apply Hkeep. rewrite lookup_insert.
      case_decide; [by eexists|done].
    + intros p Hp. rewrite Hother by done. apply lookup_insert_ne.
      intros <-. by apply (Hp title).
  - destruct Hrow as [->|(title & text & _ & [=] & _)]. done.
Qed.

(** X15: whatever the title holds (slashes, dots, [..]), the document of a
    row lands directly in the output directory: its path is "outputs/", the
    sanitized title and ".md", whose directory part is "outputs" and whose
    file part has no slash. *)
Theorem document_stays_in_outputs (cols : list string) (row : list cell)
    (p text : string) :
  markdown_document cols row = Ok (p, text) ->
  exists title,
    series_item cols row "Title" = Ok (Some title)
    /\ p = "outputs/" +:+ sanitize title +:+ ".md"
    /\ dirname p = "outputs"
    /\ any_char is_slash (basename p) = false.
Proof.
  intros (title & Ht & -> & _)%markdown_document_Ok.
  exists title. split; [done|].
  destruct (document_path_parts title) as (Hp & Hd & _ & Hb). done.
Qed.

(** X16: the renderer runs the rows in order and stops at the first one that
    raises: rendering [rs1 ++ rs2] is rendering [rs1] and, if that ends
    normally, rendering [rs2] in the world it leaves; an exception in [rs1]
    is the result, with the documents written before it in place. *)
Theorem rendering_stops_at_first_failure (cols : list string)
    (rs1 rs2 : list (list cell)) (w : World) :
  create_publication_markdown {| columns := cols; rows := rs1 ++ rs2 |} w
  = match create_publication_markdown {| columns := cols; rows := rs1 |} w with
    | Done _ w1 =>
        create_publication_markdown {| columns := cols; rows := rs2 |} w1
    | Raised e w1 => Raised e w1
    end.
Proof. apply render_rows_app. Qed.

(** X17: however it ends, the renderer creates no directory, changes no lock,
    deletes no file, and leaves untouched every file whose path is not the
    document path of some title; in particular the CSV export of any minute
    is never overwritten by a document. *)
Theorem rendering_only_writes_documents (publication_df : DataFrame) (w : World) :
  let w' := world_after (create_publication_markdown publication_df w) in
  dirs w' = dirs w /\ locked w' = locked w /\ clock w' = clock w
  /\ (forall p, is_Some (files w !! p) -> is_Some (files w' !! p))
  /\ (forall p, (forall title, p <> document_path title) ->
        files w' !! p = files w !! p)
  /\ (forall w0, files w' !! csv_path w0 = files w !! csv_path w0).
Proof.
  unfold create_publication_markdown.
  pose proof (render_rows_world (columns publication_df) (rows publication_df) w)
    as (Hd & Hl & Hc & Hkeep & Hother).
  simpl in *. repeat (split; [done|]).
  intros w0. apply Hother. intros title H. symmetry in H.
  by apply csv_path_not_document in H.
Qed.

Lemma render_rows_keep_path (cols : list string) (rs : list (list cell))
    (w w' : World) (p : string) :
  render_rows cols rs w = Done () w' ->
  Forall (fun row => forall p' t', markdown_document cols row = Ok (p', t') ->
                                   p' <> p) rs ->
  files w' !! p = files w !! p.
Proof.
  revert w. induction rs as [|row rs IH]; intros w; simpl.
  - by intros [= <-].
  - unfold mbind, io_bind. intros Hrun Hall.
    apply Forall_cons in Hall as [Hrow Hall].
    pose proof (render_row_world cols row w) as Hw. simpl in Hw.
    destruct (render_row cols row w) as [[] w1|e w1]; [|discriminate].
    simpl in Hw. rewrite (IH w1 Hrun Hall).
    destruct Hw as [->|(title & text & Hdoc & _ & ->)]; [done|]. simpl.
    apply lookup_insert_ne. by apply (Hrow _ text).
Qed.

(** X18: documents are overwritten by path: after a rendering that ends
    normally, the file at the path of a row holds the text of that row
    provided no later row has the same path; so of the rows whose titles
    sanitize alike, the last one wins. *)
Theorem last_row_of_a_path_wins (cols : list string) (rs1 rs2 : list (list cell))
    (row : list cell) (w w' : World) (p t : string) :
  create_publication_markdown
    {| columns := cols; rows := rs1 ++ row :: rs2 |} w = Done () w' ->
  markdown_document cols row = Ok (p, t) ->
  Forall (fun row' => forall p' t', markdown_document cols row' = Ok (p', t') ->
                                    p' <> p) rs2 ->
  files w' !! p = Some t.
Proof.
  unfold create_publication_markdown. simpl. rewrite render_rows_app.
  destruct (render_rows cols rs1 w) as [[] w1|e w1]; [|discriminate].
  simpl. unfold mbind, io_bind. intros Hrun Hdoc Hlater.
  destruct (render_row cols row w1) as [[] w2|e w2] eqn:Hrow; [|discriminate].
  rewrite (render_rows_keep_path _ _ _ _ _ Hrun Hlater).
  revert Hrow. unfold render_row, mbind, io_bind, lift. rewrite Hdoc. simpl.
  intros Hwr%write_file_Done. by rewrite Hwr, lookup_insert_eq.
Qed.


(** X20: a frame that lacks one of the eight columns cannot be rendered: the
    first row raises and nothing is written. *)
Theorem rendering_needs_all_columns (cols : list string) (row : list cell)
    (rs : list (list cell)) (c : string) (w : World) :
  c ∈ publication_columns -> has_column c cols = false ->
  exists e,
    create_publication_markdown {| columns := cols; rows := row :: rs |} w
    = Raised e w.
Proof.
  intros Hc Hmiss. unfold create_publication_markdown. simpl.
  unfold mbind, io_bind, render_row, lift.
  destruct (markdown_document cols row) as [[p text]|e] eqn:Hdoc; [|eauto].
  exfalso. apply markdown_document_Ok in Hdoc as (_ & _ & _ & Hall).
  rewrite Forall_forall in Hall. apply Hall in Hc. congruence.
Qed.



(** ** Rendering as a sequence of writes *)

Lemma lookup_write_all (docs : list (string * string)) (m : gmap string string)
    (p : string) :
  write_all docs m !! p = latest p (m !! p) docs.
Proof.
  unfold write_all, latest. revert m.
  induction docs as [|[q t] docs IH]; intros m; simpl; [done|].
  rewrite IH. f_equal. rewrite lookup_insert. by repeat case_decide.
Qed.

Lemma latest_default (p : string) (old : option string)
    (docs : list (string * string)) :
  latest p old docs
  = match latest p None docs with Some t => Some t | None => old end.
Proof.
  unfold latest. revert old.
  induction docs as [|[q t] docs IH]; intros old; simpl; [done|].
  rewrite IH. rewrite (IH (if decide (q = p) then Some t else None)).
  destruct (foldl _ None docs); [done|]. by case_decide.
Qed.

Lemma write_all_twice (docs : list (string * string)) (m : gmap string string) :
  write_all docs (write_all docs m) = write_all docs m.
Proof.
  apply map_eq. intros p. rewrite !lookup_write_all.
  rewrite (latest_default p (latest p (m !! p) docs)).
  rewrite (latest_default p (m !! p)).
  by destruct (latest p None docs).
Qed.

Lemma dom_write_all (docs : list (string * string)) (m : gmap string string) :
  dom (write_all docs m) = dom m ∪ list_to_set (map fst docs).
Proof.
  unfold write_all. revert m.
  induction docs as [|[q t] docs IH]; intros m; simpl.
  - by rewrite union_empty_r_L.
  - rewrite IH, dom_insert_L. apply set_eq. intros x.
    rewrite !elem_of_union, elem_of_singleton. tauto.
Qed.

Lemma write_file_replay (path text : string) (w w1 v : World) :
  write_file path text w = Done () w1 ->
  dirs v = dirs w -> locked v = locked w ->
  write_file path text v
  = Done () {| dirs := dirs v; files := <[path := text]> (files v);
               locked := locked v; clock := clock v |}.
Proof.
  unfold write_file, dir_exists. intros H Hd Hl. rewrite Hd, Hl.
  destruct (_ || _); [discriminate|].
  destruct (negb _); [discriminate|].
  by destruct (bool_decide _).
Qed.

(** A rendering that ends normally is the writes of its documents, and can
    be replayed in any world with the same directories and locks. *)
Lemma render_rows_Done (cols : list string) (rs : list (list cell)) (w w' : World) :
  render_rows cols rs w = Done () w' ->
  exists docs,
    Forall2 (fun row d => markdown_document cols row = Ok d) rs docs
    /\ forall v, dirs v = dirs w -> locked v = locked w ->
         render_rows cols rs v
         = Done () {| dirs := dirs v; files := write_all docs (files v);
                      locked := locked v; clock := clock v |}.
Proof.
  revert w. induction rs as [|row rs IH]; intros w; simpl.
  - intros _. exists []. split; [constructor|]. intros v _ _. by destruct v.
  - unfold render_row. unfold mbind, io_bind, lift.
    destruct (markdown_document cols row) as [[p t]|e] eqn:Hdoc;
      [|simpl; discriminate].
    simpl. destruct (write_file p t w) as [[] w1|e w1] eqn:Hwr; [|discriminate].
    intros Hrun. destruct (IH w1 Hrun) as (docs & Hdocs & Hreplay).
    exists ((p, t) :: docs). split; [by constructor|].
    intros v Hd Hl. rewrite (write_file_replay _ _ _ _ v Hwr Hd Hl).
    apply write_file_Done_world in Hwr as ->. simpl in Hreplay.
    rewrite Hreplay by done. done.
Qed.

(** X22: rendering is idempotent: after a rendering that ended normally,
    rendering the same frame again ends normally and leaves the world
    exactly as it was, every document holding the same text. *)
Theorem rendering_twice_is_rendering_once (publication_df : DataFrame)
    (w w1 : World) :
  create_publication_markdown publication_df w = Done () w1 ->
  create_publication_markdown publication_df w1 = Done () w1.
Proof.
  unfold create_publication_markdown. intros Hrun.
  destruct (render_rows_Done _ _ _ _ Hrun) as (docs & _ & Hreplay).
  pose proof (Hreplay w eq_refl eq_refl) as Hfirst.
  rewrite Hrun in Hfirst. injection Hfirst as Heq.
  assert (dirs w1 = dirs w /\ locked w1 = locked w) as [Hd Hl]
    by (by rewrite Heq).
  rewrite (Hreplay w1 Hd Hl). subst w1. simpl. by rewrite write_all_twice.
Qed.

Lemma documents_of_cells (rs : list PublicationRow) (docs : list (string * string)) :
  Forall2 (fun row d => markdown_document publication_columns row = Ok d)
          (map cells_of rs) docs ->
  map fst docs = map (fun r => document_path (row_Title r)) rs.
Proof.
  revert docs. induction rs as [|r rs IH]; intros docs Hdocs;
    inversion Hdocs as [|? d ? docs' Hd Hrest]; subst; simpl; [done|].
  destruct (markdown_document_cells_of r) as [text Hdoc].
  rewrite Hdoc in Hd. injection Hd as <-. simpl. f_equal. by apply IH.
Qed.

(** X23: a rendering of builder rows that ends normally adds exactly the
    document paths of their titles to the files that were there: one
    document per distinct sanitized title, and no other file. *)
Theorem rendering_creates_the_documents (rs : list PublicationRow) (w w' : World) :
  create_publication_markdown (frame_of rs) w = Done () w' ->
  dom (files w')
  = dom (files w)
    ∪ list_to_set (map (fun r => document_path (row_Title r)) rs).
Proof.
  unfold create_publication_markdown. rewrite rows_frame_of.
  destruct rs as [|r0 rs0].
  { simpl. intros [= <-]. by rewrite union_empty_r_L. }
  change (columns (frame_of (r0 :: rs0))) with publication_columns.
  intros Hrun.
  destruct (render_rows_Done _ _ _ _ Hrun) as (docs & Hdocs & Hreplay).
  rewrite (Hreplay w eq_refl eq_refl) in Hrun. injection Hrun as <-. simpl.
  rewrite dom_write_all. by rewrite (documents_of_cells _ _ Hdocs).
Qed.

Lemma rendering_twice_is_rendering_once_witness :
  exists w1,
    create_publication_markdown (frame_of [sample_row "A?"; sample_row "A!"])
      outputs_world = Done () w1
    /\ create_publication_markdown (frame_of [sample_row "A?"; sample_row "A!"]) w1
       = Done () w1.
Proof.
  eexists. split; [vm_compute; reflexivity|].
  apply (rendering_twice_is_rendering_once
           (frame_of [sample_row "A?"; sample_row "A!"]) outputs_world).
  vm_compute. reflexivity.
Defined.

Lemma rendering_creates_the_documents_witness :
  exists w',
    create_publication_markdown (frame_of [sample_row "A?"; sample_row "A!"])
      outputs_world = Done () w'
    /\ dom (files w')
       = dom (files outputs_world)
         ∪ list_to_set (map (fun r => document_path (row_Title r))
                            [sample_row "A?"; sample_row "A!"]).
Proof.
  eexists. split; [vm_compute; reflexivity|].
  apply (rendering_creates_the_documents
           [sample_row "A?"; sample_row "A!"] outputs_world).
  vm_compute. reflexivity.
Defined.

(** ** Authors: from the join of the builder to the split of the renderer *)

Lemma startswith_comma_space (c : ascii) (n rest : string) :
  startswith ", " (String c n) = false ->
  startswith ", " (String c (n +:+ ", " +:+ rest)) = false.
Proof.
  cbn [startswith]. destruct (Ascii.eqb "," c); [|done]. cbn [andb].
  destruct n as [|d n]; [done|].
  rewrite append_cons. cbn [startswith]. by destruct (Ascii.eqb " " d).
Qed.

Lemma split_from_piece (n cur rest : string) :
  contains ", " n = false ->
  split_from ", " 0 cur (n +:+ ", " +:+ rest)
  = (cur +:+ n) :: split_from ", " 0 "" rest.
Proof.
  revert cur. induction n as [|c n IH]; intros cur Hn.
  - by rewrite append_nil_r.
  - cbn [contains] in Hn. apply orb_false_iff in Hn as [Hhead Htail].
    rewrite append_cons.
    pose proof (startswith_comma_space c n rest Hhead) as Hlong.
    cbn [split_from]. rewrite Hlong. rewrite (IH _ Htail).
    by rewrite append_assoc.
Qed.

Lemma split_from_end (n cur : string) :
  contains ", " n = false -> split_from ", " 0 cur n = [cur +:+ n].
Proof.
  revert cur. induction n as [|c n IH]; intros cur Hn.
  - by rewrite append_nil_r.
  - cbn [contains] in Hn. apply orb_false_iff in Hn as [Hhead Htail].
    cbn [split_from]. rewrite Hhead, (IH _ Htail). by rewrite append_assoc.
Qed.

Lemma join_cons (sep x y : string) (l : list string) :
  join sep (x :: y :: l) = x +:+ sep +:+ join sep (y :: l).
Proof. reflexivity. Qed.

(** Splitting on ", " undoes joining with ", " when no piece holds ", ". *)
Lemma split_join (names : list string) :
  names <> [] -> Forall (fun n => contains ", " n = false) names ->
  split ", " (join ", " names) = names.
Proof.
  intros Hne Hall. unfold split.
  induction Hall as [|n names Hn Hall IH]; [done|].
  destruct names as [|n2 names].
  - cbn [join String.concat]. by rewrite split_from_end.
  - rewrite join_cons, split_from_piece by done.
    rewrite append_nil_l. f_equal. by apply IH.
Qed.

(** X24: the renderer recovers the authors from the Authors cell by splitting
    on ", ": for a record with at least one author, none of whose names
    holds ", ", the Authors line of the document has one double-bracketed
    link per author, in order, joined by "**, **"; for a record with no
    author it is the single empty link "[[]]". *)
Theorem author_links_follow_authors (set_iter : list string -> list string)
    (record : RawRecord) (r : PublicationRow) (mc : MedlineCitationT)
    (art : ArticleT) (l : list AuthorT) :
  publication_row set_iter record = Ok r ->
  MedlineCitation record = Some mc -> Article mc = Some art ->
  AuthorList art = Some l ->
  (l = [] -> author_links (row_Authors r) = "[[]]")
  /\ (l <> [] ->
      Forall (fun a => contains ", " (author_name a) = false) l ->
      author_links (row_Authors r)
      = join "**, **" (map (fun a => author_link (author_name a)) l)).
Proof.
  intros Hr Hmc Hart Hl.
  apply publication_row_Ok in Hr
    as (mc' & art' & l' & j' & affs & Hmc' & Hart' & Hl' & _ & _ & _ & _
        & Hau & _).
  same_parts Hmc Hmc' Hart Hart' Hl Hl'. rewrite Hau. split.
  - intros ->. reflexivity.
  - intros Hne Hnames. unfold author_links.
    rewrite split_join.
    + by rewrite map_map.
    + by destruct l.
    + by apply Forall_fmap.
Qed.

(** ** The main block *)



Section MainFacts.

Variable search_reply : request -> option SearchRecord.
Variable fetch_reply : request -> option Records.
Variable set_iter : list string -> list string.

(** Every way the two fetching calls of the main block can end. *)
Lemma fetching_cases (ex_query : string) (s : Session) :
  let s1 := {| email := placeholder; sent := sent s ++ [search_request ex_query] |} in
  match search_reply (search_request ex_query) with
  | None => fetch_pubmed_data search_reply ex_query 50 s = Lost Unreachable s1
  | Some sr =>
      match IdList sr with
      | None =>
          fetch_pubmed_data search_reply ex_query 50 s
          = Lost (Python (KeyError "IdList")) s1
      | Some ids =>
          fetch_pubmed_data search_reply ex_query 50 s = Received ids s1
          /\ let s2 := {| email := placeholder;
                          sent := (sent s ++ [search_request ex_query]) ++ [fetch_request ids] |} in
             match fetch_reply (fetch_request ids) with
             | None => fetch_article_details fetch_reply ids s1 = Lost Unreachable s2
             | Some records =>
                 fetch_article_details fetch_reply ids s1 = Received records s2
             end
      end
  end.
Proof.
  unfold fetch_pubmed_data, fetch_article_details, esearch, efetch, call,
    set_email, get_email, net_lift, mbind, net_bind, mret, net_ret,
    search_request, fetch_request, placeholder. simpl.
  destruct (search_reply _) as [sr|]; [|done].
  destruct (IdList sr) as [ids|]; simpl; [|done].
  split; [done|]. by destruct (fetch_reply _).
Qed.


(** X26: a failure of the network part stops the main block before the file
    system is touched: if the search is lost, or its answer has no 'IdList',
    or the fetch is lost, the run is aborted in the world it started in. *)
Theorem main_network_failure_leaves_files (ex_query : string) (s : Session)
    (w : World) :
  search_reply (search_request ex_query) = None
  \/ (exists sr,
        search_reply (search_request ex_query)
        = Some sr
        /\ (IdList sr = None
            \/ exists ids,
                 IdList sr = Some ids
                 /\ fetch_reply (fetch_request ids)
                    = None)) ->
  exists f s', main search_reply fetch_reply set_iter ex_query s w = Aborted f s' w
    /\ (f = Unreachable \/ f = Python (KeyError "IdList")).
Proof.
  pose proof (fetching_cases ex_query s) as Hcases. simpl in Hcases.
  unfold main.
  intros [Hnone|(sr & Hsr & [Hids|(ids & Hids & Hfetch)])].
  - rewrite Hnone in Hcases. rewrite Hcases. eauto.
  - rewrite Hsr, Hids in Hcases. rewrite Hcases. eauto.
  - rewrite Hsr, Hids in Hcases. destruct Hcases as [-> Hf].
    rewrite Hfetch in Hf. rewrite Hf. eauto.
Qed.


End MainFacts.

(** ** Instances of the further properties *)

Lemma document_stays_in_outputs_witness :
  exists p text,
    markdown_document publication_columns (cells_of (sample_row "../../etc/passwd"))
    = Ok (p, text)
    /\ p = "outputs/etcpasswd.md" /\ dirname p = "outputs".
Proof.
  eexists _, _. split; [vm_compute; reflexivity|]. split; [reflexivity|].
  destruct (document_stays_in_outputs publication_columns
              (cells_of (sample_row "../../etc/passwd")) _ _
              ltac:(vm_compute; reflexivity))
    as (title & _ & _ & Hd & _).
  exact Hd.
Defined.

Lemma keywords_joined_witness :
  exists r,
    publication_row py_set
      (full_citation "1" "On burns" ["Background."; "Methods."] []
         [heading "Burns"; heading "Humans"]) = Ok r
    /\ exists names,
         Forall2 (fun h n => DescriptorName h = Some n)
                 [heading "Burns"; heading "Humans"] names
         /\ row_Keywords r = join ", " names.
Proof.
  eexists. split; [vm_compute; reflexivity|].
  eapply (keywords_joined py_set
            (full_citation "1" "On burns" ["Background."; "Methods."] []
               [heading "Burns"; heading "Humans"])).
  - vm_compute. reflexivity.
  - reflexivity.
  - reflexivity.
Defined.

Lemma abstract_joined_witness :
  exists r,
    publication_row py_set
      (full_citation "1" "On burns" ["Background."; "Methods."] [] []) = Ok r
    /\ row_Abstract r = "Background. Methods.".
Proof.
  eexists. split; [vm_compute; reflexivity|].
  apply (proj1 (abstract_joined py_set
                  (full_citation "1" "On burns" ["Background."; "Methods."] [] [])
                  _ _ _ _ ltac:(vm_compute; reflexivity) eq_refl eq_refl eq_refl)
               ["Background."; "Methods."]).
  reflexivity.
Defined.

Lemma row_errors_name_required_keys_witness :
  exists k,
    KeyError "MedlineCitation" = KeyError k
    /\ k ∈ ["MedlineCitation"; "PMID"; "Article"; "ArticleTitle"; "AuthorList";
            "Affiliation"; "Journal"; "Title"; "DescriptorName"].
Proof.
  apply (row_errors_name_required_keys py_set {| MedlineCitation := None |}).
  reflexivity.
Defined.

Lemma incomplete_affiliation_raises_witness :
  publication_row py_set
    (citation "1" "On burns"
       [{| LastName := Some "Doe"; ForeName := Some "J";
           AffiliationInfo := Some [{| Affiliation := None |}] |}])
  = Err (KeyError "Affiliation").
Proof.
  eapply incomplete_affiliation_raises.
  - reflexivity.
  - reflexivity.
  - eexists. reflexivity.
  - eexists. reflexivity.
  - reflexivity.
  - left. intros [x H]. discriminate H.
Defined.

Lemma incomplete_heading_raises_witness :
  publication_row py_set
    (full_citation "1" "On burns" [] []
       [heading "Burns"; {| DescriptorName := None |}])
  = Err (KeyError "DescriptorName").
Proof.
  eapply incomplete_heading_raises.
  - reflexivity.
  - reflexivity.
  - eexists. reflexivity.
  - eexists. reflexivity.
  - reflexivity.
  - constructor.
  - reflexivity.
  - eexists. reflexivity.
  - reflexivity.
  - right. left. reflexivity.
Defined.

Lemma dataframe_shape_witness :
  exists df w',
    create_publication_dataframe py_set
      {| PubmedArticle := Some [citation "1" "On burns" []] |} fresh_world
    = Done df w'
    /\ columns df = publication_columns.
Proof.
  eexists _, _. split; [vm_compute; reflexivity|].
  destruct (dataframe_shape py_set
              {| PubmedArticle := Some [citation "1" "On burns" []] |}
              fresh_world _ _ ltac:(vm_compute; reflexivity))
    as [(Hnil & _)|(_ & Hcols & _)].
  - discriminate Hnil.
  - exact Hcols.
Defined.

Lemma url_follows_pmid_witness :
  exists df w' row,
    create_publication_dataframe py_set
      {| PubmedArticle := Some [citation "31" "On burns" []] |} fresh_world
    = Done df w'
    /\ rows df = [row]
    /\ exists pmid,
         series_item (columns df) row "PMID" = Ok (Some pmid)
         /\ series_item (columns df) row "URL"
            = Ok (Some ("https://www.ncbi.nlm.nih.gov/pubmed/" +:+ pmid)).
Proof.
  eexists _, _, _. split; [vm_compute; reflexivity|]. split; [reflexivity|].
  eapply (url_follows_pmid py_set
            {| PubmedArticle := Some [citation "31" "On burns" []] |} fresh_world).
  - vm_compute. reflexivity.
  - left.
Defined.

Lemma export_touches_one_file_witness :
  exists df w',
    create_publication_dataframe py_set
      {| PubmedArticle := Some [citation "1" "On burns" []] |} fresh_world
    = Done df w'
    /\ files w' = <[csv_path fresh_world := to_csv df]> (files fresh_world)
    /\ dirs w' = {["outputs"]} ∪ dirs fresh_world
    /\ locked w' = locked fresh_world /\ clock w' = clock fresh_world.
Proof.
  eexists _, _. split; [vm_compute; reflexivity|].
  apply (export_touches_one_file py_set
           {| PubmedArticle := Some [citation "1" "On burns" []] |} fresh_world).
  vm_compute. reflexivity.
Defined.

Lemma failed_export_writes_nothing_witness :
  exists e w',
    create_publication_dataframe py_set
      {| PubmedArticle := Some [citation "1" "On burns" []] |} locked_world
    = Raised e w'
    /\ files w' = files locked_world /\ locked w' = locked locked_world
    /\ clock w' = clock locked_world /\ (is_key_error e -> w' = locked_world).
Proof.
  eexists _, _. split; [vm_compute; reflexivity|].
  apply (failed_export_writes_nothing py_set
           {| PubmedArticle := Some [citation "1" "On burns" []] |} locked_world).
  vm_compute. reflexivity.
Defined.

Lemma export_has_header_witness :
  exists df w',
    create_publication_dataframe py_set
      {| PubmedArticle := Some [citation "1" "On burns" []] |} fresh_world
    = Done df w'
    /\ files w' !! csv_path fresh_world
       = Some ("PMID,Title,Abstract,Authors,Journal,Keywords,URL,Affiliations"
               +:+ newline
               +:+ join "" (map (fun row => csv_line (map na_rep row)) (rows df))).
Proof.
  eexists _, _. split; [vm_compute; reflexivity|].
  apply (export_has_header py_set
           {| PubmedArticle := Some [citation "1" "On burns" []] |} fresh_world).
  - vm_compute. reflexivity.
  - discriminate.
Defined.

Lemma export_succeeds_witness :
  exists df w',
    create_publication_dataframe py_set
      {| PubmedArticle := Some [citation "1" "On burns" []] |} fresh_world
    = Done df w'.
Proof.
  apply (export_succeeds py_set _ [citation "1" "On burns" []]).
  - reflexivity.
  - constructor; [|constructor]. eexists. vm_compute. reflexivity.
  - vm_compute. reflexivity.
  - right. split; intros H; vm_compute in H; discriminate H.
  - intros H. vm_compute in H. discriminate H.
  - intros H. vm_compute in H. discriminate H.
Defined.

Lemma same_minute_overwrites_witness :
  exists df1 w1 df2 w2,
    create_publication_dataframe py_set
      {| PubmedArticle := Some [citation "1" "On burns" []] |} fresh_world
    = Done df1 w1
    /\ create_publication_dataframe py_set
         {| PubmedArticle := Some [citation "2" "On scars" []] |} w1
       = Done df2 w2
    /\ files w2 = <[csv_path fresh_world := to_csv df2]> (files fresh_world).
Proof.
  eexists _, _, _, _. split; [vm_compute; reflexivity|].
  split; [vm_compute; reflexivity|].
  refine (proj2 (same_minute_overwrites py_set
                   {| PubmedArticle := Some [citation "1" "On burns" []] |}
                   {| PubmedArticle := Some [citation "2" "On scars" []] |}
                   fresh_world _ _ _ _ _ _)).
  - vm_compute. reflexivity.
  - vm_compute. reflexivity.
Defined.

Lemma last_row_of_a_path_wins_witness :
  exists w' t,
    create_publication_markdown
      {| columns := publication_columns;
         rows := [cells_of (sample_row "A?"); cells_of (sample_row "A!")] |}
      outputs_world = Done () w'
    /\ markdown_document publication_columns (cells_of (sample_row "A!"))
       = Ok ("outputs/A.md", t)
    /\ files w' !! "outputs/A.md" = Some t.
Proof.
  eexists _, _. split; [vm_compute; reflexivity|].
  split; [vm_compute; reflexivity|].
  eapply (last_row_of_a_path_wins publication_columns
            [cells_of (sample_row "A?")] [] (cells_of (sample_row "A!"))
            outputs_world).
  - vm_compute. reflexivity.
  - vm_compute. reflexivity.
  - constructor.
Defined.


Lemma rendering_needs_all_columns_witness :
  exists e,
    create_publication_markdown
      {| columns := ["Title"]; rows := [[Some "On burns"]] |} outputs_world
    = Raised e outputs_world.
Proof.
  apply (rendering_needs_all_columns ["Title"] [Some "On burns"] [] "PMID").
  - left.
  - reflexivity.
Defined.


Lemma author_links_follow_authors_witness :
  exists r,
    publication_row py_set
      (citation "1" "On burns" [author "Doe" "J" []; author "Roe" "A" []]) = Ok r
    /\ author_links (row_Authors r) = "[[Doe J]]**, **[[Roe A]]".
Proof.
  eexists. split; [vm_compute; reflexivity|].
  apply (proj2 (author_links_follow_authors py_set
                  (citation "1" "On burns" [author "Doe" "J" []; author "Roe" "A" []])
                  _ _ _ [author "Doe" "J" []; author "Roe" "A" []]
                  ltac:(vm_compute; reflexivity) eq_refl eq_refl eq_refl)).
  - discriminate.
  - repeat constructor.
Defined.

Lemma main_network_failure_leaves_files_witness :
  exists f s',
    main silent_server silent_server py_set "burns" configured_session fresh_world
    = Aborted f s' fresh_world
    /\ (f = Unreachable \/ f = Python (KeyError "IdList")).
Proof.
  apply main_network_failure_leaves_files. left. reflexivity.
Defined.

